(** * ADF dashboard: a shallow embedding of [the_features.py]

    The program is one Streamlit script.  Every run of the script goes
    top to bottom: it reads the uploaded CSV, re-indexes the table by
    year, lets the user pick a column, draws the series and runs three
    analyzers, each inside its own [try]/[except Exception].

    The script is embedded as a function from the widget state (the
    uploaded file and the position picked in the select box) to the list
    of elements it puts on the page and the way it ends: it either falls
    off the end or is left by an exception nothing caught.

    pandas, statsmodels and matplotlib are not part of the repository.
    What the script needs of them and cannot be written down from the
    script itself is collected in the record [Libraries]; every theorem
    holds for every such record. *)

From Stdlib Require Import String List ZArith Floats Bool Arith Lia Sorted.
Import ListNotations.

Set Warnings "-inexact-float".

Local Open Scope string_scope.
Local Open Scope list_scope.

(** ** Exceptions and results *)

(** A Python exception object: its class name, whether the class derives
    from [Exception] (as opposed to [BaseException] only, such as
    [KeyboardInterrupt]), and [str(e)]. *)
Record exn : Type := mkExn {
  exn_class : string;
  is_Exception : bool;
  exn_str : string
}.

Definition IndexError (msg : string) : exn := mkExn "IndexError" true msg.
Definition KeyError (msg : string) : exn := mkExn "KeyError" true msg.
Definition TypeError (msg : string) : exn := mkExn "TypeError" true msg.
Definition ValueError (msg : string) : exn := mkExn "ValueError" true msg.

(** How a call ends. *)
Inductive outcome (A : Type) : Type :=
| Returned (a : A)
| Raised (e : exn).
Arguments Returned {A} a.
Arguments Raised {A} e.

Definition omap {A B : Type} (f : A -> B) (r : outcome A) : outcome B :=
  match r with
  | Returned a => Returned (f a)
  | Raised e => Raised e
  end.

(** Run [f] over a list, left to right, stopping at the first exception. *)
Fixpoint traverse {A B : Type} (f : A -> outcome B) (l : list A)
  : outcome (list B) :=
  match l with
  | [] => Returned []
  | a :: l' =>
      match f a with
      | Raised e => Raised e
      | Returned b =>
          match traverse f l' with
          | Raised e => Raised e
          | Returned bs => Returned (b :: bs)
          end
      end
  end.

(** ** Cells, missing values and numeric coercion *)

(** An entry of a pandas column: an integer, a binary64 float (NaN is the
    missing value of [read_csv]), a string of an object column, or
    [<NA>], the missing value of the nullable [Int64] type. *)
Inductive value : Type :=
| VInt (z : Z)
| VFloat (f : float)
| VStr (s : string)
| VNA.

(** [pandas.isna] on one entry. *)
Definition isna (v : value) : bool :=
  match v with
  | VNA => true
  | VFloat f => PrimFloat.is_nan f
  | _ => false
  end.

Definition is_number (v : value) : bool :=
  match v with
  | VInt _ | VFloat _ => true
  | _ => false
  end.

(** ** Tables and series *)

(** An annual period ([freq="Y"]) is determined by its year. *)
Record Period : Type := mkPeriod { year : Z }.

(** A row label: a position of the default [RangeIndex], or a period. *)
Inductive label : Type :=
| LPos (i : nat)
| LPeriod (p : Period).

(** A [DataFrame]: the column labels, and the rows in order, each with
    its index label and one cell per column. *)
Record DataFrame : Type := mkFrame {
  columns : list string;
  rows : list (label * list value)
}.

Definition index (df : DataFrame) : list label := map fst (rows df).
Definition nrows (df : DataFrame) : nat := length (rows df).

(** A [Series]: labelled values. *)
Definition Series : Type := list (label * value).

(** The cell of a row at column position [j]. *)
Definition cell (j : nat) (r : label * list value) : value :=
  nth j (snd r) (VFloat nan).

(** [df.head()]: the first five rows. *)
Definition head (df : DataFrame) : DataFrame :=
  mkFrame (columns df) (firstn 5 (rows df)).

(** [df.rename(columns={old: new}, inplace=True)]: every column labelled
    [old] is relabelled. *)
Definition rename_columns (old new : string) (df : DataFrame) : DataFrame :=
  mkFrame (map (fun c => if String.eqb c old then new else c) (columns df))
          (rows df).

(** Positions of the columns labelled [name]. *)
Fixpoint positions_from (i : nat) (name : string) (cols : list string)
  : list nat :=
  match cols with
  | [] => []
  | c :: cols' =>
      if String.eqb c name then i :: positions_from (S i) name cols'
      else positions_from (S i) name cols'
  end.

Definition positions (name : string) (cols : list string) : list nat :=
  positions_from 0 name cols.

(** What [df[key]] is: one column (a Series), or, when the label occurs
    more than once, a sub-frame. *)
Inductive selection : Type :=
| OneColumn (j : nat) (s : Series)
| SubFrame (js : list nat).

(** [str(col)] for the value of the select box. *)
Definition py_str (col : option string) : string :=
  match col with
  | Some c => c
  | None => "None"
  end.

(** [df[key]]. *)
Definition getitem (df : DataFrame) (key : option string) : outcome selection :=
  match key with
  | None => Raised (KeyError "None")
  | Some name =>
      match positions name (columns df) with
      | [] => Raised (KeyError name)
      | [j] => Returned (OneColumn j (map (fun r => (fst r, cell j r)) (rows df)))
      | js => Returned (SubFrame js)
      end
  end.

(** Replace the element at position [j]. *)
Fixpoint set_nth {A : Type} (j : nat) (a : A) (l : list A) : list A :=
  match l, j with
  | [], _ => []
  | _ :: l', O => a :: l'
  | x :: l', S j' => x :: set_nth j' a l'
  end.

(** Remove the element at position [j]. *)
Fixpoint remove_nth {A : Type} (j : nat) (l : list A) : list A :=
  match l, j with
  | [], _ => []
  | _ :: l', O => l'
  | x :: l', S j' => x :: remove_nth j' l'
  end.

(** [df[name] = s] for an existing column at position [j] and a series
    carrying the frame's own index: cell [j] of each row is replaced. *)
Fixpoint assign_rows (j : nat) (rs : list (label * list value))
  (vs : list value) : list (label * list value) :=
  match rs, vs with
  | r :: rs', v :: vs' => (fst r, set_nth j v (snd r)) :: assign_rows j rs' vs'
  | _, _ => rs
  end.

Definition setitem (j : nat) (vs : list value) (df : DataFrame) : DataFrame :=
  mkFrame (columns df) (assign_rows j (rows df) vs).

(** [df.dropna(subset=[name], inplace=True)] for the column at [j]. *)
Definition dropna_subset (j : nat) (df : DataFrame) : DataFrame :=
  mkFrame (columns df) (filter (fun r => negb (isna (cell j r))) (rows df)).

(** [df.set_index(idx, inplace=True)] for an index of the frame's length. *)
Fixpoint relabel (rs : list (label * list value)) (idx : list label)
  : list (label * list value) :=
  match rs, idx with
  | r :: rs', l :: idx' => (l, snd r) :: relabel rs' idx'
  | _, _ => rs
  end.

Definition set_index (idx : list label) (df : DataFrame) : DataFrame :=
  mkFrame (columns df) (relabel (rows df) idx).

(** [df.drop(columns=[name], inplace=True)] for the column at [j]. *)
Definition drop_column (j : nat) (df : DataFrame) : DataFrame :=
  mkFrame (remove_nth j (columns df))
          (map (fun r => (fst r, remove_nth j (snd r))) (rows df)).

(** [Series.dropna()]. *)
Definition dropna (s : Series) : Series :=
  filter (fun x => negb (isna (snd x))) s.

(** ** The libraries *)

(** The result of [adfuller]: [result[0]] and [result[1]]; the script
    reads nothing else of the tuple. *)
Record adf_result : Type := mkAdf {
  adfstat : float;
  pvalue : float
}.

(** The result of [seasonal_decompose]. *)
Record DecomposeResult : Type := mkDecompose {
  observed : Series;
  trend : Series;
  seasonal : Series;
  resid : Series
}.

(** What a plotting call leaves on an axes. *)
Inductive artist : Type :=
| Line2D (points : Series)
| Stems (heights : list float).

(** The library calls whose results the script cannot determine itself. *)
Record Libraries : Type := mkLibraries {
  (** [pd.read_csv(file)] on the bytes of the upload. *)
  read_csv : string -> outcome DataFrame;
  (** How [pd.to_numeric] reads one string of an object column; NaN
      where it does not read as a number ([errors="coerce"]). *)
  str_to_float : string -> float;
  (** What the cast to [Int64] makes of one entry that is not missing:
      the integer, or the exception the cast is left by. *)
  cast_Int64 : value -> outcome Z;
  (** How [pd.PeriodIndex(..., freq="Y")] reads one integer. *)
  Period_Y : Z -> outcome Period;
  (** [Series.plot(ax=...)]. *)
  Series_plot : Series -> outcome artist;
  (** [adfuller(series, autolag=...)]. *)
  adfuller : Series -> string -> outcome adf_result;
  (** [plot_acf(series, ax=...)] and [plot_pacf(series, ax=...)]. *)
  plot_acf : Series -> outcome artist;
  plot_pacf : Series -> outcome artist;
  (** [seasonal_decompose(series, model=..., period=...)]. *)
  seasonal_decompose : Series -> string -> nat -> outcome DecomposeResult
}.

(** [pd.to_numeric(..., errors="coerce")] on one entry. *)
Definition to_numeric_coerce (L : Libraries) (v : value) : value :=
  match v with
  | VInt z => VInt z
  | VFloat f => VFloat f
  | VStr s => VFloat (str_to_float L s)
  | VNA => VFloat nan
  end.

(** [.astype("Int64")] on one entry: a missing value becomes [<NA>],
    any other entry is cast by the library. *)
Definition astype_Int64 (L : Libraries) (v : value) : outcome value :=
  if isna v then Returned VNA else omap VInt (cast_Int64 L v).

(** [pd.to_numeric(df[key], errors="coerce")]: a sub-frame is refused. *)
Definition to_numeric (L : Libraries) (sel : selection)
  : outcome (nat * Series) :=
  match sel with
  | OneColumn j s =>
      Returned (j, map (fun x => (fst x, to_numeric_coerce L (snd x))) s)
  | SubFrame _ =>
      Raised (TypeError "arg must be a list, tuple, 1-d array, or Series")
  end.

(** [pd.PeriodIndex(values, freq="Y")]. *)
Definition PeriodIndex (L : Libraries) (vs : list value) : outcome (list label) :=
  traverse (fun v =>
              match v with
              | VInt z => omap LPeriod (Period_Y L z)
              | _ => Raised (TypeError "Incorrect dtype")
              end) vs.

(** ** The page *)

Record Axes : Type := mkAxes {
  ax_title : string;
  ax_xlabel : string;
  ax_ylabel : string;
  ax_color : string;
  ax_artists : list artist
}.

Record Figure : Type := mkFigure {
  figsize : Z * Z;
  sharex : bool;
  tight_layout : bool;
  fig_axes : list Axes
}.

(** An argument of [st.write]. *)
Inductive written : Type :=
| WStr (s : string)
| WFloat (f : float)
| WFrame (df : DataFrame).

(** What one Streamlit call puts on the page. *)
Inductive element : Type :=
| Title (s : string)
| SidebarHeader (s : string)
| FileUploader (text : string) (types : list string)
| Subheader (s : string)
| Write (args : list written)
| Selectbox (text : string) (options : list string)
| Pyplot (fig : Figure)
| Success (s : string)
| Warning (s : string)
| Error (s : string)
| Info (s : string)
| Markdown (s : string).

(** ** Script fragments *)

(** A fragment of the script: the elements it put on the page, and how
    it ended. *)
Definition Script (A : Type) : Type := list element * outcome A.

Definition page {A : Type} (m : Script A) : list element := fst m.
Definition ending {A : Type} (m : Script A) : outcome A := snd m.

Definition ret {A : Type} (a : A) : Script A := ([], Returned a).

Definition bind {A B : Type} (m : Script A) (k : A -> Script B) : Script B :=
  match m with
  | (out, Returned a) => let (out', r) := k a in (out ++ out', r)
  | (out, Raised e) => (out, Raised e)
  end.

Definition emit (el : element) : Script unit := ([el], Returned tt).
Definition call {A : Type} (r : outcome A) : Script A := ([], r).

(** [try: body except Exception as e: handler(e)].  What [body] had put
    on the page stays there. *)
Definition try_except {A : Type} (body : Script A) (handler : exn -> Script A)
  : Script A :=
  match body with
  | (out, Raised e) =>
      if is_Exception e
      then let (out', r) := handler e in (out ++ out', r)
      else (out, Raised e)
  | done => done
  end.

Declare Scope script_scope.
Delimit Scope script_scope with script.
Notation "x <- m ;; k" := (bind m (fun x => k))
  (at level 61, m at next level, right associativity) : script_scope.
Notation "m ;; k" := (bind m (fun _ => k))
  (at level 61, right associativity) : script_scope.
Local Open Scope script_scope.

(** ** The script, block by block *)

Section Script.

Context (L : Libraries).

(** Lines 20-27: the first column becomes the yearly index. *)
Definition year_indexed (df : DataFrame) : outcome DataFrame :=
  match columns df with
  | [] => Raised (IndexError "index 0 is out of bounds for axis 0 with size 0")
  | first :: _ =>
      let df := rename_columns first "YEAR" df in
      match getitem df (Some "YEAR") with
      | Raised e => Raised e
      | Returned sel =>
          match to_numeric L sel with
          | Raised e => Raised e
          | Returned (j, years) =>
              match traverse (astype_Int64 L) (map snd years) with
              | Raised e => Raised e
              | Returned ints =>
                  let df := setitem j ints df in
                  let df := dropna_subset j df in
                  match PeriodIndex L (map (cell j) (rows df)) with
                  | Raised e => Raised e
                  | Returned idx =>
                      let df := set_index idx df in
                      Returned (drop_column j df)
                  end
              end
          end
      end
  end.

(** [st.selectbox(text, options)] with the widget at position [choice];
    [None] when there is nothing to offer. *)
Definition selectbox (text : string) (options : list string) (choice : nat)
  : Script (option string) :=
  emit (Selectbox text options) ;;
  ret (nth_error options choice).

(** Line 33: the Selected Series. *)
Definition selected_series (df : DataFrame) (col : option string)
  : outcome Series :=
  match getitem df col with
  | Raised e => Raised e
  | Returned sel =>
      match to_numeric L sel with
      | Raised e => Raised e
      | Returned (_, s) => Returned (dropna s)
      end
  end.

(** Lines 35-41: the series chart. *)
Definition series_chart (col : option string) (line : artist) : Figure :=
  mkFigure (10, 4)%Z false false
    [mkAxes (py_str col ++ " (1901–2021)") "Year" "Value" "" [line]].

Definition presentation (col : option string) (series : Series) : Script unit :=
  emit (Subheader "Selected Series") ;;
  line <- call (Series_plot L series) ;;
  emit (Pyplot (series_chart col line)).

(** Lines 46-56: the stationarity test.  [adf_body] is what stands
    under [try:]. *)
Definition adf_body (series : Series) : Script unit :=
  result <- call (adfuller L series "AIC") ;;
  emit (Write [WStr "ADF Statistic:"; WFloat (adfstat result)]) ;;
  emit (Write [WStr "p-value:"; WFloat (pvalue result)]) ;;
  if PrimFloat.ltb (pvalue result) 0.05
  then emit (Success "Series is likely stationary")
  else emit (Warning "Series is not stationary").

Definition stationarity (series : Series) : Script unit :=
  emit (Subheader "Stationarity Test (ADF)") ;;
  try_except (adf_body series)
    (fun e => emit (Error ("ADF test failed: " ++ exn_str e))).

(** Lines 61-68: the correlograms. *)
Definition correlogram_figure (acf pacf : artist) : Figure :=
  mkFigure (10, 6)%Z false false
    [mkAxes "" "" "" "" [acf]; mkAxes "" "" "" "" [pacf]].

Definition acf_body (series : Series) : Script unit :=
  acf <- call (plot_acf L series) ;;
  pacf <- call (plot_pacf L series) ;;
  emit (Pyplot (correlogram_figure acf pacf)).

Definition correlation (series : Series) : Script unit :=
  emit (Subheader "Autocorrelation and Partial Autocorrelation") ;;
  try_except (acf_body series)
    (fun e => emit (Error ("ACF/PACF plotting failed: " ++ exn_str e))).

(** Lines 73-95: the decomposition. *)
Definition explanation : string :=
"
        **Explanation:**
        - **Trend:** Long-term movement or direction in the data.
        - **Seasonality:** Regular, repeating pattern (e.g., yearly temperature variation).
        - **Cyclic:** Longer-term fluctuations (captured partly in trend if no fixed period).
        - **Irregular (Residual):** Random noise or unexplained variation.
        ".

Definition decomposition_figure (o t s r : artist) : Figure :=
  mkFigure (10, 8)%Z true true
    [mkAxes "Original Series" "" "" "blue" [o];
     mkAxes "Trend" "" "" "orange" [t];
     mkAxes "Seasonality" "" "" "green" [s];
     mkAxes "Irregular (Residuals)" "" "" "red" [r]].

Definition decomposition_body (series : Series) : Script unit :=
  d <- call (seasonal_decompose L series "additive" 10) ;;
  o <- call (Series_plot L (observed d)) ;;
  t <- call (Series_plot L (trend d)) ;;
  s <- call (Series_plot L (seasonal d)) ;;
  r <- call (Series_plot L (resid d)) ;;
  emit (Pyplot (decomposition_figure o t s r)) ;;
  emit (Markdown explanation).

Definition decomposition (series : Series) : Script unit :=
  emit (Subheader "Decomposition of Time Series") ;;
  try_except (decomposition_body series)
    (fun e => emit (Error ("Decomposition failed: " ++ exn_str e))).

(** The three analyzers, in the order the script runs them. *)
Definition analyzers (series : Series) : Script unit :=
  stationarity series ;;
  correlation series ;;
  decomposition series.

(** Lines 15-41: from the upload to the Selected Series and its chart. *)
Definition prepare (file : string) (choice : nat) : Script Series :=
  raw <- call (read_csv L file) ;;
  emit (Subheader "Raw Data") ;;
  emit (Write [WFrame (head raw)]) ;;
  df <- call (year_indexed raw) ;;
  col <- selectbox "Select column for time series analysis" (columns df) choice ;;
  series <- call (selected_series df col) ;;
  presentation col series ;;
  ret series.

(** Lines 13-95: what the script does with an upload. *)
Definition analyse (file : string) (choice : nat) : Script unit :=
  series <- prepare file choice ;;
  analyzers series.

(** One run of the script: [file] is the upload, if any, [choice] the
    position picked in the select box. *)
Definition run (file : option string) (choice : nat) : Script unit :=
  emit (Title "Time Series Analysis App") ;;
  emit (SidebarHeader "Upload Dataset") ;;
  emit (FileUploader "Upload CSV" ["csv"]) ;;
  match file with
  | Some bytes => analyse bytes choice
  | None => emit (Info "Please upload a CSV file with YEAR and time series data.")
  end.

End Script.

(** ** Vocabulary of the properties *)

(** A fragment ends in an exception that [except Exception] lets through
    only if the exception is not an [Exception]. *)
Definition catchable {A : Type} (m : Script A) : bool :=
  match ending m with
  | Raised e => is_Exception e
  | Returned _ => true
  end.

(** The script reports an error on the page. *)
Definition reports_error {A : Type} (m : Script A) : Prop :=
  exists msg, In (Error msg) (page m).

(** The year cell of a raw row does not coerce to a number. *)
Definition coercion_fails (L : Libraries) (r : label * list value) : bool :=
  isna (to_numeric_coerce L (cell 0 r)).

(** The years of the rows that are kept, in row order. *)
Definition kept_years (L : Libraries) (raw : DataFrame) : list Z :=
  flat_map (fun r =>
              match astype_Int64 L (to_numeric_coerce L (cell 0 r)) with
              | Returned (VInt z) => [z]
              | _ => []
              end) (rows raw).

(** The year of a raw row can be used: it is missing after coercion (the
    row is then dropped), or it casts to an integer that makes a period. *)
Definition year_usable (L : Libraries) (r : label * list value) : bool :=
  let v := to_numeric_coerce L (cell 0 r) in
  if isna v then true
  else match cast_Int64 L v with
       | Returned z =>
           match Period_Y L z with
           | Returned _ => true
           | Raised _ => false
           end
       | Raised _ => false
       end.

(** A raw table the script can index by year: it has a first column, no
    later column is called YEAR or like the first, and the year of every
    row can be used. *)
Definition indexable (L : Libraries) (raw : DataFrame) : Prop :=
  exists first rest,
    columns raw = first :: rest
    /\ ~ In "YEAR" rest
    /\ ~ In first rest
    /\ forallb (year_usable L) (rows raw) = true.

Definition label_year (l : label) : Z :=
  match l with
  | LPeriod p => year p
  | LPos i => Z.of_nat i
  end.

Definition index_years (df : DataFrame) : list Z := map label_year (index df).

(** [seasonal_decompose] refuses a series shorter than two periods. *)
Definition needs_two_cycles (L : Libraries) : Prop :=
  forall (s : Series) (model : string) (period : nat),
    length s < 2 * period ->
    exists e, seasonal_decompose L s model period = Raised e
              /\ is_Exception e = true.

(** The subheaders of a page, in the order they appear. *)
Fixpoint subheaders (els : list element) : list string :=
  match els with
  | [] => []
  | Subheader h :: els' => h :: subheaders els'
  | _ :: els' => subheaders els'
  end.

(** The panels of the script, top to bottom. *)
Definition panel_order : list string :=
  ["Raw Data"; "Selected Series"; "Stationarity Test (ADF)";
   "Autocorrelation and Partial Autocorrelation";
   "Decomposition of Time Series"].

(** What the page shows before the script looks at the upload. *)
Definition banner : list element :=
  [Title "Time Series Analysis App"; SidebarHeader "Upload Dataset";
   FileUploader "Upload CSV" ["csv"]].

(** ** A stand-in for the libraries

    To run the script on concrete uploads.  [read_csv] knows three
    uploads by heart, strings of decimal digits read as numbers, the
    cast to [Int64] accepts what is exactly an int64, years from 1 to
    9999 make a period, plotting works (one variant refuses a series
    without observations), and the statistics are replaced by fixed
    numbers behind the size checks the real routines make. *)
Module Sample.

Definition nl : string := String (Ascii.ascii_of_nat 10) "".

(** Years out of order and repeated. *)
Definition csv_unsorted : string :=
  "YEAR,TEMP" ++ nl ++ "2000,1.5" ++ nl ++ "2000,2.5" ++ nl
  ++ "1999,3.5" ++ nl.

Definition raw_unsorted : DataFrame :=
  mkFrame ["YEAR"; "TEMP"]
    [(LPos 0, [VInt 2000; VFloat 1.5]);
     (LPos 1, [VInt 2000; VFloat 2.5]);
     (LPos 2, [VInt 1999; VFloat 3.5])].

(** Five rows; one year is not a number, one temperature is missing. *)
Definition csv_five : string :=
  "Year,TEMP,RAIN" ++ nl ++ "1901,10.5,7" ++ nl ++ "??,11.5,8" ++ nl
  ++ "1903,,9" ++ nl ++ "1904,12.5,10" ++ nl ++ "1905,13.5,11" ++ nl.

Definition raw_five : DataFrame :=
  mkFrame ["Year"; "TEMP"; "RAIN"]
    [(LPos 0, [VStr "1901"; VFloat 10.5; VInt 7]);
     (LPos 1, [VStr "??"; VFloat 11.5; VInt 8]);
     (LPos 2, [VStr "1903"; VFloat nan; VInt 9]);
     (LPos 3, [VStr "1904"; VFloat 12.5; VInt 10]);
     (LPos 4, [VStr "1905"; VFloat 13.5; VInt 11])].

Definition EmptyDataError (msg : string) : exn := mkExn "EmptyDataError" true msg.
Definition ParserError (msg : string) : exn := mkExn "ParserError" true msg.

Definition sample_read_csv (bytes : string) : outcome DataFrame :=
  if String.eqb bytes "" then
    Raised (EmptyDataError "No columns to parse from file")
  else if String.eqb bytes csv_unsorted then Returned raw_unsorted
  else if String.eqb bytes csv_five then Returned raw_five
  else Raised (ParserError "Error tokenizing data").

(** Decimal digits to an integer. *)
Fixpoint digits (acc : Z) (s : string) : option Z :=
  match s with
  | EmptyString => Some acc
  | String c s' =>
      let n := Ascii.nat_of_ascii c in
      if ((48 <=? n) && (n <=? 57))%nat
      then digits (10 * acc + Z.of_nat (n - 48))%Z s'
      else None
  end.

Definition sample_str_to_float (s : string) : float :=
  match s with
  | EmptyString => nan
  | _ => match digits 0 s with
         | Some z => PrimFloat.of_uint63 (Uint63.of_Z z)
         | None => nan
         end
  end.

(** The integer a float is exactly equal to, when there is one. *)
Definition float_to_Z (f : float) : option Z :=
  match Prim2SF f with
  | S754_zero _ => Some 0%Z
  | S754_finite s m e =>
      let mag :=
        if (0 <=? e)%Z then Some (Z.pos m * 2 ^ e)%Z
        else if (Z.pos m mod 2 ^ (- e) =? 0)%Z
             then Some (Z.pos m / 2 ^ (- e))%Z
             else None in
      match mag with
      | Some a => Some (if s then (- a)%Z else a)
      | None => None
      end
  | _ => None
  end.

Definition in_int64 (z : Z) : bool := ((- 2 ^ 63 <=? z) && (z <? 2 ^ 63))%Z.

Definition sample_cast_Int64 (v : value) : outcome Z :=
  match v with
  | VInt z =>
      if in_int64 z then Returned z
      else Raised (TypeError "cannot safely cast to int64")
  | VFloat f =>
      match Prim2SF f with
      | S754_infinity _ =>
          Raised (mkExn "OverflowError" true
                    "cannot convert float infinity to integer")
      | _ =>
          match float_to_Z f with
          | Some z =>
              if in_int64 z then Returned z
              else Raised (TypeError "cannot safely cast to int64")
          | None => Raised (TypeError "cannot safely cast to int64")
          end
      end
  | _ => Raised (TypeError "cannot safely cast to int64")
  end.

Definition sample_Period_Y (z : Z) : outcome Period :=
  if ((1 <=? z) && (z <=? 9999))%Z then Returned (mkPeriod z)
  else Raised (ValueError "year is out of range").

Definition sample_adfuller (s : Series) (autolag : string)
  : outcome adf_result :=
  if (length s <=? 3)%nat
  then Raised (ValueError
         "sample size is too short to use selected regression component")
  else Returned (mkAdf (-1.5)%float 0.5%float).

Definition sample_plot_acf (s : Series) : outcome artist :=
  match s with
  | [] => Raised (ValueError "zero-size array")
  | _ => Returned (Stems [1.0%float])
  end.

Definition sample_seasonal_decompose (s : Series) (model : string)
  (period : nat) : outcome DecomposeResult :=
  if (length s <? 2 * period)%nat
  then Raised (ValueError "x must have 2 complete cycles")
  else Returned (mkDecompose s s [] []).

Definition lib : Libraries :=
  mkLibraries sample_read_csv sample_str_to_float sample_cast_Int64
    sample_Period_Y
    (fun s => Returned (Line2D s))
    sample_adfuller sample_plot_acf sample_plot_acf
    sample_seasonal_decompose.

(** A library whose test always answers with the p-value [p]. *)
Definition lib_with_pvalue (p : float) : Libraries :=
  mkLibraries sample_read_csv sample_str_to_float sample_cast_Int64
    sample_Period_Y
    (fun s => Returned (Line2D s))
    (fun _ _ => Returned (mkAdf (-2.5)%float p)) sample_plot_acf sample_plot_acf
    sample_seasonal_decompose.

(** [raw_five] indexed by year, and its column TEMP as a series. *)
Definition indexed_five : DataFrame :=
  mkFrame ["TEMP"; "RAIN"]
    [(LPeriod (mkPeriod 1901), [VFloat 10.5; VInt 7]);
     (LPeriod (mkPeriod 1903), [VFloat nan; VInt 9]);
     (LPeriod (mkPeriod 1904), [VFloat 12.5; VInt 10]);
     (LPeriod (mkPeriod 1905), [VFloat 13.5; VInt 11])].

Definition temp_five : Series :=
  [(LPeriod (mkPeriod 1901), VFloat 10.5);
   (LPeriod (mkPeriod 1904), VFloat 12.5);
   (LPeriod (mkPeriod 1905), VFloat 13.5)].

(** A library that reads every upload as [raw] and whose ADF test ends
    as [adf] says. *)
Definition reading (raw : DataFrame) (adf : outcome adf_result) : Libraries :=
  mkLibraries (fun _ => Returned raw) sample_str_to_float sample_cast_Int64
    sample_Period_Y
    (fun s => Returned (Line2D s))
    (fun _ _ => adf) sample_plot_acf sample_plot_acf
    sample_seasonal_decompose.

(** A table with nothing but the year column. *)
Definition raw_year_only : DataFrame :=
  mkFrame ["YEAR"] [(LPos 0, [VInt 1901]); (LPos 1, [VInt 1902])].

(** A year that is a number but not an integer. *)
Definition raw_half_year : DataFrame :=
  mkFrame ["YEAR"; "TEMP"]
    [(LPos 0, [VInt 1901; VFloat 1.5]);
     (LPos 1, [VFloat 1901.5; VFloat 2.5])].

(** A second column that is already called YEAR. *)
Definition raw_two_years : DataFrame :=
  mkFrame ["Date"; "YEAR"; "TEMP"]
    [(LPos 0, [VInt 1901; VInt 1901; VFloat 1.5])].

Definition KeyboardInterrupt : exn := mkExn "KeyboardInterrupt" false "".

(** A column of text only: nothing of it is left after coercion. *)
Definition raw_text_only : DataFrame :=
  mkFrame ["YEAR"; "TEMP"]
    [(LPos 0, [VInt 1901; VStr "low"]);
     (LPos 1, [VInt 1902; VStr "high"])].

(** A library that reads every upload as [raw] and whose plot refuses a
    series without observations. *)
Definition plot_refusing_nothing (raw : DataFrame) : Libraries :=
  mkLibraries (fun _ => Returned raw) sample_str_to_float sample_cast_Int64
    sample_Period_Y
    (fun s => match s with
              | [] => Raised (ValueError
                  "zero-size array to reduction operation fmin which has no identity")
              | _ => Returned (Line2D s)
              end)
    sample_adfuller sample_plot_acf sample_plot_acf
    sample_seasonal_decompose.

(** A column with an infinite value and an entry that is text. *)
Definition raw_with_infinity : DataFrame :=
  mkFrame ["YEAR"; "FLOW"]
    [(LPos 0, [VInt 1901; VFloat 1.5]);
     (LPos 1, [VInt 1902; VFloat infinity]);
     (LPos 2, [VInt 1903; VStr "n/a"])].

End Sample.

(** * Properties *)

(** ** Lists and results *)

Lemma traverse_length {A B : Type} (f : A -> outcome B) (l : list A) :
  forall l', traverse f l = Returned l' -> length l' = length l.
Proof.
  induction l as [|a l IH]; simpl; intros l' H.
  - inversion H. reflexivity.
  - destruct (f a); try discriminate.
    destruct (traverse f l); try discriminate.
    inversion H. simpl. f_equal. apply IH. reflexivity.
Qed.

Lemma filter_negb_length {A : Type} (p : A -> bool) (l : list A) :
  length (filter (fun x => negb (p x)) l) = length l - length (filter p l).
Proof.
  enough (length (filter (fun x => negb (p x)) l) + length (filter p l)
          = length l) by lia.
  induction l as [|a l IH]; simpl; [reflexivity|].
  destruct (p a); simpl; lia.
Qed.

Lemma relabel_snd (rs : list (label * list value)) :
  forall idx, map snd (relabel rs idx) = map snd rs.
Proof.
  induction rs as [|r rs IH]; intros [|l idx]; simpl; try reflexivity.
  f_equal. apply IH.
Qed.

Lemma relabel_map_snd {B : Type} (g : list value -> B)
  (rs : list (label * list value)) (idx : list label) :
  map (fun r => g (snd r)) (relabel rs idx) = map (fun r => g (snd r)) rs.
Proof. rewrite <- !(map_map snd g), relabel_snd. reflexivity. Qed.

Lemma relabel_fst (rs : list (label * list value)) :
  forall idx, length idx = length rs -> map fst (relabel rs idx) = idx.
Proof.
  induction rs as [|r rs IH]; intros [|l idx]; simpl; intros H;
    try discriminate; try reflexivity.
  f_equal. apply IH. lia.
Qed.

Lemma Sorted_lt_NoDup (l : list Z) : Sorted Z.lt l -> NoDup l.
Proof.
  intros H. apply Sorted_StronglySorted in H.
  - induction H as [|a l Hl IH Ha]; constructor; [|exact IH].
    intros Hin. rewrite Forall_forall in Ha. specialize (Ha a Hin). lia.
  - intros x y z. apply Z.lt_trans.
Qed.

Lemma Sorted_lt_le (l : list Z) : Sorted Z.lt l -> Sorted Z.le l.
Proof.
  induction 1 as [|a l Hl IH Ha]; constructor; [exact IH|].
  destruct Ha; constructor. lia.
Qed.

(** ** Cleaning: lines 20-27 *)

Section Cleaning.

Context (L : Libraries).

Lemma to_numeric_coerce_is_number (v : value) :
  is_number (to_numeric_coerce L v) = true.
Proof. destruct v; reflexivity. Qed.

(** A cast that succeeds yields [<NA>] exactly for a missing entry. *)
Lemma astype_Int64_isna (v w : value) :
  astype_Int64 L v = Returned w -> isna w = isna v.
Proof.
  unfold astype_Int64. destruct (isna v).
  - intros H. inversion H. reflexivity.
  - destruct (cast_Int64 L v); simpl; intros H; inversion H. reflexivity.
Qed.

(** The cast of an entry that is not missing is an integer. *)
Lemma astype_Int64_int (v w : value) :
  astype_Int64 L v = Returned w -> isna v = false -> exists z, w = VInt z.
Proof.
  unfold astype_Int64. intros H Hna. rewrite Hna in H.
  destruct (cast_Int64 L v) as [z|]; simpl in H; inversion H.
  exists z. reflexivity.
Qed.

(** What is left of the rows after the year column is cast, the rows
    without a year are dropped and the year column is removed. *)
Lemma kept_rows (rs : list (label * list value)) :
  forall ints,
    traverse (astype_Int64 L)
      (map (fun r => to_numeric_coerce L (cell 0 r)) rs) = Returned ints ->
    let kept := filter (fun r => negb (isna (cell 0 r))) (assign_rows 0 rs ints) in
    map (fun r => remove_nth 0 (snd r)) kept
      = map (fun r => tl (snd r)) (filter (fun r => negb (coercion_fails L r)) rs)
    /\ map (cell 0) kept
      = map VInt (kept_years L (mkFrame [] rs)).
Proof.
  unfold kept_years. simpl.
  induction rs as [|r rs IH]; simpl; intros ints H.
  - inversion H. simpl. split; reflexivity.
  - destruct (astype_Int64 L (to_numeric_coerce L (cell 0 r))) as [w|] eqn:Hw;
      try discriminate.
    destruct (traverse (astype_Int64 L) _) as [ints'|] eqn:Ht; try discriminate.
    inversion H; subst ints; clear H. simpl.
    destruct (IH ints' eq_refl) as [IH1 IH2].
    pose proof (astype_Int64_isna _ _ Hw) as Hna.
    pose proof (astype_Int64_int _ _ Hw) as Hint.
    unfold coercion_fails at 1.
    destruct r as [l cells]. unfold cell in *. simpl in *.
    destruct cells as [|c cells]; simpl in *.
    + (* a row without cells: its year reads as NaN *)
      assert (Hnan : isna w = true) by (rewrite Hna; reflexivity).
      destruct w; simpl in Hnan; try discriminate; split; assumption.
    + rewrite <- Hna.
      destruct (isna w) eqn:Hw'.
      * simpl. destruct w; simpl in Hw'; try discriminate; split; assumption.
      * rewrite <- Hna in Hint. destruct (Hint eq_refl) as [z ->].
        simpl. rewrite IH1, IH2. split; reflexivity.
Qed.

Lemma PeriodIndex_of_years (zs : list Z) :
  forall idx, PeriodIndex L (map VInt zs) = Returned idx ->
    exists ps, traverse (Period_Y L) zs = Returned ps /\ idx = map LPeriod ps.
Proof.
  unfold PeriodIndex.
  induction zs as [|z zs IH]; simpl; intros idx H.
  - inversion H. exists []. split; reflexivity.
  - destruct (Period_Y L z) as [p|]; simpl in H; try discriminate.
    destruct (traverse _ (map VInt zs)) as [idx'|] eqn:Ht; try discriminate.
    inversion H; subst idx.
    destruct (IH idx' eq_refl) as (ps & Hps & ->).
    exists (p :: ps). rewrite Hps. split; reflexivity.
Qed.

(** The steps of [year_indexed], read back from a run that succeeded. *)
Lemma year_indexed_inv (raw df : DataFrame) :
  year_indexed L raw = Returned df ->
  exists first rest ps,
    columns raw = first :: rest
    /\ traverse (Period_Y L) (kept_years L raw) = Returned ps
    /\ index df = map LPeriod ps
    /\ map snd (rows df)
       = map (fun r => tl (snd r))
           (filter (fun r => negb (coercion_fails L r)) (rows raw))
    /\ columns df
       = map (fun c => if String.eqb c first then "YEAR" else c) rest.
Proof.
  unfold year_indexed. destruct raw as [cols rs]. simpl.
  destruct cols as [|first rest]; try discriminate.
  unfold getitem, positions. simpl. rewrite String.eqb_refl. simpl.
  destruct (positions_from 1 "YEAR" _); simpl; try discriminate.
  rewrite !map_map. simpl.
  destruct (traverse (astype_Int64 L) _) as [ints|] eqn:Hints; try discriminate.
  destruct (kept_rows rs ints Hints) as [Hcells Hyears]. simpl in Hcells, Hyears.
  rewrite Hyears.
  destruct (PeriodIndex L _) as [idx|] eqn:Hidx; try discriminate.
  intros H; inversion H; subst df; clear H.
  destruct (PeriodIndex_of_years _ _ Hidx) as (ps & Hps & ->).
  exists first, rest, ps. unfold index. simpl.
  rewrite !map_map. simpl.
  repeat split.
  - exact Hps.
  - change (fun x : label * list value => fst x) with (@fst label (list value)).
    apply relabel_fst.
    rewrite <- (length_map (cell 0)), Hyears, !length_map.
    apply (traverse_length _ _ _ Hps).
  - rewrite <- Hcells.
    exact (relabel_map_snd (remove_nth 0) _ _).
Qed.

End Cleaning.

(** ** Selection: line 33 *)

(** C5: every value of a Selected Series is a number and is not
    missing.  The series is the selected column, coerced cell by cell,
    less the entries that are missing after coercion; so a row whose
    value in that column is missing or does not read as a number is not
    in the series. *)
Theorem selected_series_has_no_missing (L : Libraries) (df : DataFrame)
  (col : option string) (s : Series) :
  selected_series L df col = Returned s ->
  Forall (fun x => is_number (snd x) = true /\ isna (snd x) = false) s
  /\ exists name j,
       col = Some name
       /\ positions name (columns df) = [j]
       /\ s = filter (fun x => negb (isna (snd x)))
                (map (fun r => (fst r, to_numeric_coerce L (cell j r))) (rows df))
       /\ forall r, In r (rows df) ->
            isna (to_numeric_coerce L (cell j r)) = true ->
            ~ In (fst r, to_numeric_coerce L (cell j r)) s.
Proof.
  unfold selected_series, getitem.
  destruct col as [name|]; try discriminate.
  destruct (positions name (columns df)) as [|j [|j' js]] eqn:Hpos;
    simpl; try discriminate.
  rewrite map_map. simpl. intros H; inversion H; subst s; clear H.
  unfold dropna. split.
  - apply Forall_forall. intros [l v] Hin.
    apply filter_In in Hin. destruct Hin as [Hin Hna]. simpl in *.
    apply in_map_iff in Hin. destruct Hin as (r & Hr & _).
    inversion Hr; subst. split.
    + apply to_numeric_coerce_is_number.
    + destruct (isna _); [discriminate | reflexivity].
  - exists name, j.
    split; [reflexivity|]. split; [exact Hpos|]. split; [reflexivity|].
    intros r _ Hna Hin. apply filter_In in Hin. destruct Hin as [_ Hkeep].
    simpl in Hkeep. rewrite Hna in Hkeep. discriminate.
Qed.

(** ** Script fragments *)

Lemma try_except_returned {A : Type} (body : Script A) (h : exn -> Script A)
  (a : A) :
  ending body = Returned a -> try_except body h = body.
Proof. destruct body as [out [a'|e]]; simpl; intros H; [reflexivity | discriminate]. Qed.

Lemma try_except_caught {A : Type} (body : Script A) (h : exn -> Script A)
  (e : exn) :
  ending body = Raised e -> catchable body = true ->
  try_except body h = (page body ++ page (h e), ending (h e)).
Proof.
  unfold catchable. destruct body as [out [a|e']]; simpl; intros H Hc;
    [discriminate|].
  inversion H; subst e'. rewrite Hc. destruct (h e). reflexivity.
Qed.

Section Blocks.

Context (L : Libraries).

(** Nothing is on the page yet when the body of an analyzer fails: in
    each of the three the library calls come first. *)
Lemma adf_body_raised (s : Series) (e : exn) :
  ending (adf_body L s) = Raised e -> page (adf_body L s) = [].
Proof.
  unfold adf_body, call, bind. destruct (adfuller L s "AIC") as [r|e'].
  - simpl. destruct (PrimFloat.ltb _ _); discriminate.
  - reflexivity.
Qed.

Lemma acf_body_raised (s : Series) (e : exn) :
  ending (acf_body L s) = Raised e -> page (acf_body L s) = [].
Proof.
  unfold acf_body, call, bind. destruct (plot_acf L s); [|reflexivity].
  simpl. destruct (plot_pacf L s); [discriminate | reflexivity].
Qed.

Lemma decomposition_body_raised (s : Series) (e : exn) :
  ending (decomposition_body L s) = Raised e ->
  page (decomposition_body L s) = [].
Proof.
  unfold decomposition_body, call, bind.
  destruct (seasonal_decompose L s "additive" 10) as [d|]; [|reflexivity].
  simpl.
  destruct (Series_plot L (observed d)); [|reflexivity]. simpl.
  destruct (Series_plot L (trend d)); [|reflexivity]. simpl.
  destruct (Series_plot L (seasonal d)); [|reflexivity]. simpl.
  destruct (Series_plot L (resid d)); [discriminate | reflexivity].
Qed.

(** A block under [try]/[except Exception]: a subheader, then the body,
    then the error message if the body failed. *)
Lemma guarded_block (h : string) (body : Script unit) (prefix : string) :
  catchable body = true ->
  let block := (emit (Subheader h) ;;
                try_except body (fun e => emit (Error (prefix ++ exn_str e)))) in
  ending block = Returned tt
  /\ (forall e, ending body = Raised e ->
        block = (Subheader h :: page body ++ [Error (prefix ++ exn_str e)],
                 Returned tt)).
Proof.
  intros Hc. simpl. destruct (ending body) as [[]|e] eqn:He.
  - rewrite (try_except_returned _ _ _ He).
    destruct body as [out r]. simpl in *. subst r.
    split; [reflexivity | discriminate].
  - rewrite (try_except_caught _ _ _ He Hc). simpl.
    split; [reflexivity|]. intros e' He'. inversion He'; subst. reflexivity.
Qed.

Lemma stationarity_guarded (s : Series) :
  catchable (adf_body L s) = true ->
  ending (stationarity L s) = Returned tt
  /\ (forall e, ending (adf_body L s) = Raised e ->
        stationarity L s
        = ([Subheader "Stationarity Test (ADF)";
            Error ("ADF test failed: " ++ exn_str e)], Returned tt)).
Proof.
  intros Hc.
  destruct (guarded_block "Stationarity Test (ADF)" _ "ADF test failed: " Hc)
    as [H1 H2].
  split; [exact H1|]. intros e He.
  unfold stationarity. rewrite (H2 e He), (adf_body_raised s e He). reflexivity.
Qed.

Lemma correlation_guarded (s : Series) :
  catchable (acf_body L s) = true ->
  ending (correlation L s) = Returned tt
  /\ (forall e, ending (acf_body L s) = Raised e ->
        correlation L s
        = ([Subheader "Autocorrelation and Partial Autocorrelation";
            Error ("ACF/PACF plotting failed: " ++ exn_str e)], Returned tt)).
Proof.
  intros Hc.
  destruct (guarded_block "Autocorrelation and Partial Autocorrelation" _
              "ACF/PACF plotting failed: " Hc) as [H1 H2].
  split; [exact H1|]. intros e He.
  unfold correlation. rewrite (H2 e He), (acf_body_raised s e He). reflexivity.
Qed.

Lemma decomposition_guarded (s : Series) :
  catchable (decomposition_body L s) = true ->
  ending (decomposition L s) = Returned tt
  /\ (forall e, ending (decomposition_body L s) = Raised e ->
        decomposition L s
        = ([Subheader "Decomposition of Time Series";
            Error ("Decomposition failed: " ++ exn_str e)], Returned tt)).
Proof.
  intros Hc.
  destruct (guarded_block "Decomposition of Time Series" _
              "Decomposition failed: " Hc) as [H1 H2].
  split; [exact H1|]. intros e He.
  unfold decomposition.
  rewrite (H2 e He), (decomposition_body_raised s e He). reflexivity.
Qed.

(** A fragment that returns lets the next one run. *)
Lemma bind_returned {A B : Type} (m : Script A) (k : A -> Script B) (a : A) :
  ending m = Returned a ->
  bind m k = (page m ++ page (k a), ending (k a)).
Proof.
  destruct m as [out [a'|e]]; simpl; intros H; [|discriminate].
  inversion H; subst. destruct (k a). reflexivity.
Qed.

Lemma analyzers_run_in_turn (s : Series) :
  catchable (adf_body L s) = true ->
  catchable (acf_body L s) = true ->
  catchable (decomposition_body L s) = true ->
  analyzers L s
  = (page (stationarity L s) ++ page (correlation L s)
       ++ page (decomposition L s), Returned tt).
Proof.
  intros H1 H2 H3. unfold analyzers.
  rewrite (bind_returned _ _ tt (proj1 (stationarity_guarded s H1))).
  rewrite (bind_returned _ _ tt (proj1 (correlation_guarded s H2))).
  rewrite (proj1 (decomposition_guarded s H3)). reflexivity.
Qed.

(** The steps of [prepare], read back from a run that got to the end. *)
Lemma prepare_inv (bytes : string) (choice : nat) (s : Series) :
  ending (prepare L bytes choice) = Returned s ->
  exists raw df name line,
    read_csv L bytes = Returned raw
    /\ year_indexed L raw = Returned df
    /\ nth_error (columns df) choice = Some name
    /\ selected_series L df (Some name) = Returned s
    /\ Series_plot L s = Returned line
    /\ prepare L bytes choice
       = ([Subheader "Raw Data"; Write [WFrame (head raw)];
           Selectbox "Select column for time series analysis" (columns df);
           Subheader "Selected Series";
           Pyplot (series_chart (Some name) line)], Returned s).
Proof.
  unfold prepare, presentation, selectbox, call, emit, ret, bind, ending.
  destruct (read_csv L bytes) as [raw|] eqn:Hraw; simpl; try discriminate.
  destruct (year_indexed L raw) as [df|] eqn:Hdf; simpl; try discriminate.
  destruct (selected_series L df (nth_error (columns df) choice)) as [s'|] eqn:Hs;
    simpl; try discriminate.
  destruct (Series_plot L s') as [line|] eqn:Hl; simpl; try discriminate.
  intros H; inversion H; subst s'.
  destruct (nth_error (columns df) choice) as [name|] eqn:Hn.
  - exists raw, df, name, line. repeat split; assumption.
  - discriminate.
Qed.

Lemma run_after_prepare (bytes : string) (choice : nat) (s : Series) :
  ending (prepare L bytes choice) = Returned s ->
  run L (Some bytes) choice
  = ([Title "Time Series Analysis App"; SidebarHeader "Upload Dataset";
      FileUploader "Upload CSV" ["csv"]]
     ++ page (prepare L bytes choice) ++ page (analyzers L s),
     ending (analyzers L s)).
Proof.
  intros H. unfold run, analyse. rewrite (bind_returned _ _ s H). reflexivity.
Qed.

End Blocks.

(** ** The script as a whole *)

(** C1, as amended: the script does not catch what [read_csv] raises.
    On an upload that does not parse, the run ends in that exception
    right after the upload control, with no error message of the
    script's own on the page and without reading the file again. *)
Theorem parse_error_leaves_the_script (L : Libraries) (bytes : string)
  (choice : nat) (e : exn) :
  read_csv L bytes = Raised e ->
  run L (Some bytes) choice
  = ([Title "Time Series Analysis App"; SidebarHeader "Upload Dataset";
      FileUploader "Upload CSV" ["csv"]], Raised e)
  /\ ~ reports_error (run L (Some bytes) choice).
Proof.
  intros H.
  assert (Hrun : run L (Some bytes) choice
                 = ([Title "Time Series Analysis App";
                     SidebarHeader "Upload Dataset";
                     FileUploader "Upload CSV" ["csv"]], Raised e)).
  { unfold run, analyse, prepare, call, emit, bind. rewrite H. reflexivity. }
  split; [exact Hrun|].
  rewrite Hrun. intros [msg Hin]. simpl in Hin.
  destruct Hin as [Hin|[Hin|[Hin|[]]]]; discriminate.
Qed.

(** C2: when the ADF test returns, the stationarity panel shows the
    statistic, the p-value and one verdict: "likely stationary" if and
    only if the p-value is below 0.05 in the comparison of binary64
    floats, "not stationary" otherwise; a p-value equal to 0.05 gets
    "not stationary". *)
Theorem adf_classification (L : Libraries) (s : Series) (r : adf_result) :
  adfuller L s "AIC" = Returned r ->
  stationarity L s
  = ([Subheader "Stationarity Test (ADF)";
      Write [WStr "ADF Statistic:"; WFloat (adfstat r)];
      Write [WStr "p-value:"; WFloat (pvalue r)];
      if PrimFloat.ltb (pvalue r) 0.05
      then Success "Series is likely stationary"
      else Warning "Series is not stationary"], Returned tt)
  /\ (In (Success "Series is likely stationary") (page (stationarity L s))
      <-> PrimFloat.ltb (pvalue r) 0.05 = true)
  /\ (In (Warning "Series is not stationary") (page (stationarity L s))
      <-> PrimFloat.ltb (pvalue r) 0.05 = false)
  /\ (pvalue r = 0.05%float ->
      In (Warning "Series is not stationary") (page (stationarity L s))
      /\ ~ In (Success "Series is likely stationary") (page (stationarity L s))).
Proof.
  intros H.
  assert (Hs : stationarity L s
               = ([Subheader "Stationarity Test (ADF)";
                   Write [WStr "ADF Statistic:"; WFloat (adfstat r)];
                   Write [WStr "p-value:"; WFloat (pvalue r)];
                   if PrimFloat.ltb (pvalue r) 0.05
                   then Success "Series is likely stationary"
                   else Warning "Series is not stationary"], Returned tt)).
  { unfold stationarity, adf_body, call, emit, bind, try_except. rewrite H.
    simpl. destruct (PrimFloat.ltb (pvalue r) 0.05); reflexivity. }
  assert (Hyes : In (Success "Series is likely stationary") (page (stationarity L s))
                 <-> PrimFloat.ltb (pvalue r) 0.05 = true).
  { rewrite Hs. simpl. destruct (PrimFloat.ltb (pvalue r) 0.05); split.
    - reflexivity.
    - intros _. right. right. right. left. reflexivity.
    - intros [Hin|[Hin|[Hin|[Hin|[]]]]]; discriminate.
    - discriminate. }
  assert (Hno : In (Warning "Series is not stationary") (page (stationarity L s))
                <-> PrimFloat.ltb (pvalue r) 0.05 = false).
  { rewrite Hs. simpl. destruct (PrimFloat.ltb (pvalue r) 0.05); split.
    - intros [Hin|[Hin|[Hin|[Hin|[]]]]]; discriminate.
    - discriminate.
    - reflexivity.
    - intros _. right. right. right. left. reflexivity. }
  split; [exact Hs|]. split; [exact Hyes|]. split; [exact Hno|].
  intros Hp.
  assert (Hlt : PrimFloat.ltb (pvalue r) 0.05 = false)
    by (rewrite Hp; reflexivity).
  split.
  - apply Hno. exact Hlt.
  - intros Hin. apply Hyes in Hin. rewrite Hlt in Hin. discriminate.
Qed.

(** C6: for every series, the empty one included, when what an analyzer
    raises is an [Exception], the three analyzers all run and the script
    goes on to its end: the page holds the panel of each, one after the
    other, and the panel of an analyzer that failed is its subheader
    followed by the error message made from the exception. *)
Theorem analyzer_failures_are_contained (L : Libraries) (s : Series) :
  catchable (adf_body L s) = true ->
  catchable (acf_body L s) = true ->
  catchable (decomposition_body L s) = true ->
  analyzers L s
  = (page (stationarity L s) ++ page (correlation L s)
       ++ page (decomposition L s), Returned tt)
  /\ (forall e, ending (adf_body L s) = Raised e ->
        stationarity L s
        = ([Subheader "Stationarity Test (ADF)";
            Error ("ADF test failed: " ++ exn_str e)], Returned tt))
  /\ (forall e, ending (acf_body L s) = Raised e ->
        correlation L s
        = ([Subheader "Autocorrelation and Partial Autocorrelation";
            Error ("ACF/PACF plotting failed: " ++ exn_str e)], Returned tt))
  /\ (forall e, ending (decomposition_body L s) = Raised e ->
        decomposition L s
        = ([Subheader "Decomposition of Time Series";
            Error ("Decomposition failed: " ++ exn_str e)], Returned tt))
  /\ (forall bytes choice,
        ending (prepare L bytes choice) = Returned s ->
        ending (run L (Some bytes) choice) = Returned tt).
Proof.
  intros H1 H2 H3.
  split; [apply analyzers_run_in_turn; assumption|].
  split; [apply stationarity_guarded; assumption|].
  split; [apply correlation_guarded; assumption|].
  split; [apply decomposition_guarded; assumption|].
  intros bytes choice Hp.
  rewrite (run_after_prepare L bytes choice s Hp).
  rewrite (analyzers_run_in_turn L s H1 H2 H3). reflexivity.
Qed.

(** C8, as amended: with a decomposition routine that refuses a series
    shorter than two periods, a Selected Series of fewer than 20
    observations whose chart was drawn (the plotting call of line 37
    returned, so the run got to the analyzers) makes the decomposition
    fail; the failure is caught and reported, the run goes to its end,
    and the series chart drawn before is on the page. *)
Theorem short_series_decomposition_fails (L : Libraries) (bytes : string)
  (choice : nat) (s : Series) :
  needs_two_cycles L ->
  ending (prepare L bytes choice) = Returned s ->
  length s < 20 ->
  catchable (adf_body L s) = true ->
  catchable (acf_body L s) = true ->
  exists e name line,
    seasonal_decompose L s "additive" 10 = Raised e
    /\ decomposition L s
       = ([Subheader "Decomposition of Time Series";
           Error ("Decomposition failed: " ++ exn_str e)], Returned tt)
    /\ Series_plot L s = Returned line
    /\ ending (run L (Some bytes) choice) = Returned tt
    /\ In (Pyplot (series_chart (Some name) line))
          (page (run L (Some bytes) choice))
    /\ In (Error ("Decomposition failed: " ++ exn_str e))
          (page (run L (Some bytes) choice)).
Proof.
  intros Hlib Hp Hlen H1 H2.
  destruct (Hlib s "additive" 10 Hlen) as (e & He & Hexc).
  assert (Hbody : decomposition_body L s = ([], Raised e)).
  { unfold decomposition_body, call, bind. rewrite He. reflexivity. }
  assert (H3 : catchable (decomposition_body L s) = true).
  { rewrite Hbody. exact Hexc. }
  assert (Hd : decomposition L s
               = ([Subheader "Decomposition of Time Series";
                   Error ("Decomposition failed: " ++ exn_str e)], Returned tt)).
  { apply decomposition_guarded; [exact H3|]. rewrite Hbody. reflexivity. }
  destruct (prepare_inv L bytes choice s Hp)
    as (raw & df & name & line & _ & _ & _ & _ & Hline & Hpage).
  exists e, name, line.
  rewrite (run_after_prepare L bytes choice s Hp).
  rewrite (analyzers_run_in_turn L s H1 H2 H3), Hpage, Hd.
  unfold page, ending. cbn [fst snd].
  repeat split; try assumption.
  - apply in_or_app. right. apply in_or_app. left.
    right. right. right. right. left. reflexivity.
  - apply in_or_app. right. apply in_or_app. right.
    apply in_or_app. right. apply in_or_app. right.
    right. left. reflexivity.
Qed.

(** C10: whenever the series chart is drawn, it is the last element
    before the analyzers, it has one axes, and the title of that axes
    is the name of the selected column followed by " (1901–2021)",
    whatever years the table holds. *)
Theorem series_chart_title (L : Libraries) (bytes : string) (choice : nat)
  (s : Series) :
  ending (prepare L bytes choice) = Returned s ->
  exists raw df name line shown,
    read_csv L bytes = Returned raw
    /\ year_indexed L raw = Returned df
    /\ nth_error (columns df) choice = Some name
    /\ page (prepare L bytes choice)
       = shown ++ [Subheader "Selected Series";
                   Pyplot (series_chart (Some name) line)]
    /\ map ax_title (fig_axes (series_chart (Some name) line))
       = [(name ++ " (1901–2021)")%string].
Proof.
  intros Hp.
  destruct (prepare_inv L bytes choice s Hp)
    as (raw & df & name & line & Hraw & Hdf & Hn & _ & _ & Hpage).
  exists raw, df, name, line,
    [Subheader "Raw Data"; Write [WFrame (head raw)];
     Selectbox "Select column for time series analysis" (columns df)].
  rewrite Hpage. repeat split; assumption.
Qed.

(** ** The properties on the sample uploads *)

Lemma sample_needs_two_cycles : needs_two_cycles Sample.lib.
Proof.
  intros s model period H. simpl. unfold Sample.sample_seasonal_decompose.
  apply Nat.ltb_lt in H. rewrite H.
  eexists. split; reflexivity.
Qed.

(** An empty upload is refused by [read_csv]; the run ends in that
    exception and the page carries no error message. *)
Lemma empty_upload_is_not_reported :
  read_csv Sample.lib ""
  = Raised (Sample.EmptyDataError "No columns to parse from file")
  /\ ending (run Sample.lib (Some "") 0)
     = Raised (Sample.EmptyDataError "No columns to parse from file")
  /\ ~ reports_error (run Sample.lib (Some "") 0).
Proof.
  split; [reflexivity|]. split; [reflexivity|].
  intros [msg Hin]. vm_compute in Hin.
  destruct Hin as [Hin|[Hin|[Hin|[]]]]; discriminate.
Qed.

Lemma parse_error_leaves_the_script_witness :
  run Sample.lib (Some "") 0
  = ([Title "Time Series Analysis App"; SidebarHeader "Upload Dataset";
      FileUploader "Upload CSV" ["csv"]],
     Raised (Sample.EmptyDataError "No columns to parse from file")).
Proof.
  exact (proj1 (parse_error_leaves_the_script Sample.lib "" 0 _ eq_refl)).
Defined.

Lemma adf_classification_witness :
  In (Warning "Series is not stationary")
     (page (stationarity (Sample.lib_with_pvalue 0.05) []))
  /\ ~ In (Success "Series is likely stationary")
          (page (stationarity (Sample.lib_with_pvalue 0.05) [])).
Proof.
  exact (proj2 (proj2 (proj2
           (adf_classification (Sample.lib_with_pvalue 0.05) []
              (mkAdf (-2.5)%float 0.05%float) eq_refl))) eq_refl).
Defined.

(** Years out of order and repeated go into the index as they come. *)
Lemma unsorted_years_stay_unsorted :
  exists df,
    year_indexed Sample.lib Sample.raw_unsorted = Returned df
    /\ index_years df = [2000; 2000; 1999]%Z
    /\ ~ NoDup (index_years df)
    /\ ~ Sorted Z.le (index_years df).
Proof.
  eexists. split; [reflexivity|]. split; [reflexivity|].
  change (index_years _) with [2000; 2000; 1999]%Z.
  split.
  - intros H. inversion H as [|x l Hnin _]. apply Hnin. left. reflexivity.
  - intros H. inversion H as [|x l H' _]. inversion H' as [|y l' _ Hhd].
    inversion Hhd as [|z l'' Hle]. lia.
Qed.

Lemma selected_series_has_no_missing_witness :
  Forall (fun x => is_number (snd x) = true /\ isna (snd x) = false)
    Sample.temp_five.
Proof.
  exact (proj1 (selected_series_has_no_missing Sample.lib Sample.indexed_five
                  (Some "TEMP") Sample.temp_five eq_refl)).
Defined.

Lemma analyzer_failures_are_contained_witness :
  analyzers Sample.lib []
  = ([Subheader "Stationarity Test (ADF)";
      Error "ADF test failed: sample size is too short to use selected regression component";
      Subheader "Autocorrelation and Partial Autocorrelation";
      Error "ACF/PACF plotting failed: zero-size array";
      Subheader "Decomposition of Time Series";
      Error "Decomposition failed: x must have 2 complete cycles"],
     Returned tt).
Proof.
  exact (eq_trans
           (proj1 (analyzer_failures_are_contained Sample.lib []
                     eq_refl eq_refl eq_refl))
           eq_refl).
Defined.

Lemma short_series_decomposition_fails_witness :
  exists e name line,
    seasonal_decompose Sample.lib Sample.temp_five "additive" 10 = Raised e
    /\ decomposition Sample.lib Sample.temp_five
       = ([Subheader "Decomposition of Time Series";
           Error ("Decomposition failed: " ++ exn_str e)], Returned tt)
    /\ Series_plot Sample.lib Sample.temp_five = Returned line
    /\ ending (run Sample.lib (Some Sample.csv_five) 0) = Returned tt
    /\ In (Pyplot (series_chart (Some name) line))
          (page (run Sample.lib (Some Sample.csv_five) 0))
    /\ In (Error ("Decomposition failed: " ++ exn_str e))
          (page (run Sample.lib (Some Sample.csv_five) 0)).
Proof.
  apply (short_series_decomposition_fails Sample.lib Sample.csv_five 0
           Sample.temp_five sample_needs_two_cycles).
  - reflexivity.
  - simpl. lia.
  - reflexivity.
  - reflexivity.
Defined.

Lemma series_chart_title_witness :
  exists raw df name line shown,
    read_csv Sample.lib Sample.csv_five = Returned raw
    /\ year_indexed Sample.lib raw = Returned df
    /\ nth_error (columns df) 0 = Some name
    /\ page (prepare Sample.lib Sample.csv_five 0)
       = shown ++ [Subheader "Selected Series";
                   Pyplot (series_chart (Some name) line)]
    /\ map ax_title (fig_axes (series_chart (Some name) line))
       = [(name ++ " (1901–2021)")%string].
Proof.
  exact (series_chart_title Sample.lib Sample.csv_five 0 Sample.temp_five
           eq_refl).
Defined.

(** * Further properties of the script *)

(** ** What a page can hold *)

Lemma bind_raised {A B : Type} (m : Script A) (k : A -> Script B) (e : exn) :
  ending m = Raised e -> bind m k = (page m, Raised e).
Proof.
  destruct m as [out [a|e']]; simpl; intros H; [discriminate|].
  inversion H. reflexivity.
Qed.

Lemma page_bind_prefix {A B : Type} (m : Script A) (k : A -> Script B) :
  exists rest, page (bind m k) = page m ++ rest.
Proof.
  destruct m as [out [a|e]]; simpl.
  - destruct (k a) as [out' r]. exists out'. reflexivity.
  - exists []. rewrite app_nil_r. reflexivity.
Qed.

Lemma bind_emit {B : Type} (el : element) (k : unit -> Script B) :
  bind (emit el) k = (el :: page (k tt), ending (k tt)).
Proof. unfold emit, bind. destruct (k tt). reflexivity. Qed.

Lemma bind_call_returned {A B : Type} (a : A) (k : A -> Script B) :
  bind (call (Returned a)) k = k a.
Proof. unfold call, bind. destruct (k a). reflexivity. Qed.

Lemma page_bind {A B : Type} (P : element -> Prop) (m : Script A)
  (k : A -> Script B) :
  Forall P (page m) -> (forall a, Forall P (page (k a))) ->
  Forall P (page (bind m k)).
Proof.
  intros Hm Hk. destruct m as [out [a|e]]; simpl in *.
  - specialize (Hk a). destruct (k a) as [out' r]. simpl in *.
    apply Forall_app. split; assumption.
  - exact Hm.
Qed.

Lemma page_try_except {A : Type} (P : element -> Prop) (body : Script A)
  (h : exn -> Script A) :
  Forall P (page body) -> (forall e, Forall P (page (h e))) ->
  Forall P (page (try_except body h)).
Proof.
  intros Hb Hh. destruct body as [out [a|e]]; simpl in *; [exact Hb|].
  destruct (is_Exception e); [|exact Hb].
  specialize (Hh e). destruct (h e) as [out' r]. simpl in *.
  apply Forall_app. split; assumption.
Qed.

Lemma page_emit (P : element -> Prop) (el : element) :
  P el -> Forall P (page (emit el)).
Proof. intros H. repeat constructor. exact H. Qed.

Lemma page_call {A : Type} (P : element -> Prop) (r : outcome A) :
  Forall P (page (call r)).
Proof. constructor. Qed.

Lemma page_ret {A : Type} (P : element -> Prop) (a : A) :
  Forall P (page (ret a)).
Proof. constructor. Qed.

(** Walk through a fragment, leaving one goal for each element it can
    put on the page. *)
Ltac walk_page :=
  repeat first
    [ apply page_call
    | apply page_ret
    | apply page_emit
    | apply page_try_except; [|intro]
    | apply page_bind; [|intro]
    | match goal with
      | |- Forall _ (page (if ?b then _ else _)) => destruct b
      end ].

Section Pages.

Context (L : Libraries).

(** Up to the chart the script shows subheaders, the preview, the select
    box and the chart, and nothing else. *)
Lemma prepare_page (P : element -> Prop) (bytes : string) (choice : nat) :
  (forall h, P (Subheader h)) -> (forall args, P (Write args)) ->
  (forall text options, P (Selectbox text options)) ->
  (forall fig, P (Pyplot fig)) ->
  Forall P (page (prepare L bytes choice)).
Proof.
  intros H1 H2 H3 H4.
  unfold prepare, presentation, selectbox. walk_page; auto.
Qed.

(** The body of an analyzer shows no error message. *)
Lemma adf_body_page (s : Series) :
  Forall (fun el => forall msg, el <> Error msg) (page (adf_body L s)).
Proof. unfold adf_body. walk_page; discriminate. Qed.

Lemma acf_body_page (s : Series) :
  Forall (fun el => forall msg, el <> Error msg) (page (acf_body L s)).
Proof. unfold acf_body. walk_page; discriminate. Qed.

Lemma decomposition_body_page (s : Series) :
  Forall (fun el => forall msg, el <> Error msg)
    (page (decomposition_body L s)).
Proof. unfold decomposition_body. walk_page; discriminate. Qed.

(** An error message in a guarded block was made from the exception that
    ended its body. *)
Lemma guarded_block_error (h : string) (body : Script unit) (prefix msg : string) :
  Forall (fun el => forall m, el <> Error m) (page body) ->
  In (Error msg)
     (page (emit (Subheader h) ;;
            try_except body (fun e => emit (Error (prefix ++ exn_str e)))))%script ->
  exists e, ending body = Raised e /\ msg = (prefix ++ exn_str e)%string.
Proof.
  intros Hb. rewrite Forall_forall in Hb.
  rewrite bind_emit. unfold page at 1. cbn [fst].
  intros [Hin|Hin]; [discriminate|].
  destruct body as [out [[]|e]]; simpl in *.
  - exfalso. exact (Hb _ Hin msg eq_refl).
  - destruct (is_Exception e); simpl in Hin.
    + apply in_app_or in Hin. destruct Hin as [Hin|[Hin|[]]].
      * exfalso. exact (Hb _ Hin msg eq_refl).
      * inversion Hin. exists e. split; reflexivity.
    + exfalso. exact (Hb _ Hin msg eq_refl).
Qed.

Lemma in_page_bind {A B : Type} (el : element) (m : Script A)
  (k : A -> Script B) :
  In el (page (bind m k)) ->
  In el (page m) \/ exists a, ending m = Returned a /\ In el (page (k a)).
Proof.
  destruct m as [out [a|e]]; simpl.
  - destruct (k a) as [out' r] eqn:Hk. simpl. intros Hin.
    apply in_app_or in Hin. destruct Hin as [Hin|Hin]; [left; exact Hin|].
    right. exists a. rewrite Hk. split; [reflexivity | exact Hin].
  - intros Hin. left. exact Hin.
Qed.

End Pages.

(** X1: the prompt to upload a file is on the page exactly when no file
    is uploaded; with a file, whatever becomes of it, the prompt is not
    shown. *)
Theorem prompt_iff_no_upload (L : Libraries) (file : option string)
  (choice : nat) :
  In (Info "Please upload a CSV file with YEAR and time series data.")
     (page (run L file choice))
  <-> file = None.
Proof.
  split.
  - destruct file as [bytes|]; [|reflexivity].
    intros Hin. exfalso.
    assert (Hall : Forall (fun el => forall text, el <> Info text)
                     (page (run L (Some bytes) choice))).
    { unfold run, analyse, analyzers, stationarity, correlation, decomposition,
        adf_body, acf_body, decomposition_body.
      walk_page; discriminate. }
    rewrite Forall_forall in Hall. exact (Hall _ Hin _ eq_refl).
  - intros ->. simpl. right. right. right. left. reflexivity.
Qed.

(** X2: once [read_csv] has returned, the page starts with the banner
    and the preview of the raw table, whatever happens afterwards; the
    preview is the first five rows, or all of them when there are fewer,
    under the column names of the file (the first one not yet renamed). *)
Theorem raw_preview_comes_first (L : Libraries) (bytes : string)
  (choice : nat) (raw : DataFrame) :
  read_csv L bytes = Returned raw ->
  (exists rest,
     page (run L (Some bytes) choice)
     = banner ++ [Subheader "Raw Data"; Write [WFrame (head raw)]] ++ rest)
  /\ rows (head raw) = firstn 5 (rows raw)
  /\ nrows (head raw) = Nat.min 5 (nrows raw)
  /\ columns (head raw) = columns raw.
Proof.
  intros H. split.
  - unfold run.
    repeat (rewrite bind_emit; cbn [page ending fst snd]; cbn beta).
    unfold analyse.
    destruct (page_bind_prefix (prepare L bytes choice)
                (fun series => analyzers L series)) as [rest' ->].
    unfold prepare. rewrite H, bind_call_returned.
    repeat (rewrite bind_emit; cbn [page ending fst snd]; cbn beta).
    eexists. unfold banner. simpl. reflexivity.
  - split; [reflexivity|]. split; [|reflexivity].
    unfold nrows, head. cbn [rows]. apply length_firstn.
Qed.

(** X3: every error message on the page comes from an analyzer.  When
    the page shows one, the upload was read, indexed by year and
    charted, and the message is the analyzer's own prefix followed by
    the text of the exception that ended its body.  Nothing the script
    does before the analyzers is ever reported this way. *)
Theorem errors_come_from_analyzers (L : Libraries) (file : option string)
  (choice : nat) (msg : string) :
  In (Error msg) (page (run L file choice)) ->
  exists bytes s e,
    file = Some bytes
    /\ ending (prepare L bytes choice) = Returned s
    /\ ((ending (adf_body L s) = Raised e
         /\ msg = ("ADF test failed: " ++ exn_str e)%string)
        \/ (ending (acf_body L s) = Raised e
            /\ msg = ("ACF/PACF plotting failed: " ++ exn_str e)%string)
        \/ (ending (decomposition_body L s) = Raised e
            /\ msg = ("Decomposition failed: " ++ exn_str e)%string)).
Proof.
  intros Hin.
  assert (Hprep : forall bytes, ~ In (Error msg) (page (prepare L bytes choice))).
  { intros bytes Hin'.
    pose proof (prepare_page L (fun el => forall m, el <> Error m) bytes choice)
      as Hall.
    rewrite Forall_forall in Hall.
    refine (Hall _ _ _ _ _ Hin' msg eq_refl); intros; discriminate. }
  destruct file as [bytes|].
  - destruct (ending (prepare L bytes choice)) as [s|e0] eqn:Hp.
    + rewrite (run_after_prepare L bytes choice s Hp) in Hin.
      unfold page at 1 in Hin. cbn [fst] in Hin.
      apply in_app_or in Hin. destruct Hin as [Hin|Hin].
      { simpl in Hin. destruct Hin as [Hin|[Hin|[Hin|[]]]]; discriminate. }
      apply in_app_or in Hin. destruct Hin as [Hin|Hin].
      { exfalso. exact (Hprep bytes Hin). }
      unfold analyzers in Hin.
      apply in_page_bind in Hin. destruct Hin as [Hin|(_ & _ & Hin)].
      { destruct (guarded_block_error _ _ _ _ (adf_body_page L s) Hin)
          as (e & He & Hmsg).
        exists bytes, s, e. split; [reflexivity|]. split; [exact Hp|].
        left. split; assumption. }
      apply in_page_bind in Hin. destruct Hin as [Hin|(_ & _ & Hin)].
      { destruct (guarded_block_error _ _ _ _ (acf_body_page L s) Hin)
          as (e & He & Hmsg).
        exists bytes, s, e. split; [reflexivity|]. split; [exact Hp|].
        right. left. split; assumption. }
      destruct (guarded_block_error _ _ _ _ (decomposition_body_page L s) Hin)
        as (e & He & Hmsg).
      exists bytes, s, e. split; [reflexivity|]. split; [exact Hp|].
      right. right. split; assumption.
    + exfalso. unfold run in Hin.
      repeat (rewrite bind_emit in Hin; cbn [page ending fst snd] in Hin;
              cbn beta in Hin).
      unfold analyse in Hin. rewrite (bind_raised _ _ _ Hp) in Hin.
      cbn [fst] in Hin.
      destruct Hin as [Hin|[Hin|[Hin|Hin]]]; try discriminate.
      exact (Hprep bytes Hin).
  - exfalso. simpl in Hin.
    destruct Hin as [Hin|[Hin|[Hin|[Hin|[]]]]]; discriminate.
Qed.

(** X4: [except Exception] lets through an exception that is not an
    [Exception].  When the ADF test is left by one, the stationarity
    panel stops at its subheader, the correlograms and the decomposition
    do not run, and the run ends in that exception. *)
Theorem base_exception_is_not_caught (L : Libraries) (s : Series) (e : exn) :
  adfuller L s "AIC" = Raised e ->
  is_Exception e = false ->
  analyzers L s = ([Subheader "Stationarity Test (ADF)"], Raised e)
  /\ (forall bytes choice,
        ending (prepare L bytes choice) = Returned s ->
        ending (run L (Some bytes) choice) = Raised e).
Proof.
  intros Ha He.
  assert (Han : analyzers L s = ([Subheader "Stationarity Test (ADF)"], Raised e)).
  { unfold analyzers, stationarity, adf_body, call, emit, bind, try_except.
    rewrite Ha. simpl. rewrite He. reflexivity. }
  split; [exact Han|].
  intros bytes choice Hp.
  rewrite (run_after_prepare L bytes choice s Hp), Han. reflexivity.
Qed.

(** A NaN is below nothing. *)
Lemma ltb_nan (x y : float) :
  PrimFloat.is_nan x = true -> PrimFloat.ltb x y = false.
Proof.
  unfold PrimFloat.is_nan. rewrite FloatAxioms.eqb_spec, FloatAxioms.ltb_spec.
  unfold SFeqb, SFltb.
  destruct (Prim2SF x) as [sx|sx| |sx mx ex]; simpl.
  - discriminate.
  - destruct sx; discriminate.
  - reflexivity.
  - rewrite Z.compare_refl.
    change (Pos.compare_cont Eq mx mx) with (Pos.compare mx mx).
    rewrite Pos.compare_refl. destruct sx; discriminate.
Qed.

(** X5: a p-value that is NaN is labelled "not stationary": the
    comparison with 0.05 is false for it, and the script takes the
    [else] branch. *)
Theorem nan_pvalue_is_not_stationary (L : Libraries) (s : Series)
  (r : adf_result) :
  adfuller L s "AIC" = Returned r ->
  PrimFloat.is_nan (pvalue r) = true ->
  stationarity L s
  = ([Subheader "Stationarity Test (ADF)";
      Write [WStr "ADF Statistic:"; WFloat (adfstat r)];
      Write [WStr "p-value:"; WFloat (pvalue r)];
      Warning "Series is not stationary"], Returned tt).
Proof.
  intros Ha Hnan.
  unfold stationarity, adf_body, call, emit, bind, try_except.
  rewrite Ha. simpl. rewrite (ltb_nan _ _ Hnan). reflexivity.
Qed.

(** Nothing in a short page is the element looked for. *)
Ltac absent H :=
  simpl in H; repeat (destruct H as [H|H]; [discriminate|]); destruct H.

(** X6: the decomposition panel shows its figure and the explanation
    together or not at all: both are on the page exactly when
    [seasonal_decompose] and the four plots of its components all
    return.  One failing plot is enough for neither to be shown. *)
Theorem decomposition_figure_and_caption (L : Libraries) (s : Series) :
  let shown := page (decomposition L s) in
  let succeeded :=
    exists d o t se r,
      seasonal_decompose L s "additive" 10 = Returned d
      /\ Series_plot L (observed d) = Returned o
      /\ Series_plot L (trend d) = Returned t
      /\ Series_plot L (seasonal d) = Returned se
      /\ Series_plot L (resid d) = Returned r
      /\ shown = [Subheader "Decomposition of Time Series";
                  Pyplot (decomposition_figure o t se r);
                  Markdown explanation] in
  (In (Markdown explanation) shown <-> succeeded)
  /\ ((exists fig, In (Pyplot fig) shown) <-> succeeded).
Proof.
  cbv zeta.
  unfold decomposition, decomposition_body, call, emit, bind, try_except.
  destruct (seasonal_decompose L s "additive" 10) as [d|e] eqn:Hd; simpl.
  2: { split; (split; [|intros (d & o & t & se & r & H & _); discriminate]).
       - destruct (is_Exception e); intros H; absent H.
       - destruct (is_Exception e); intros (fig & H); absent H. }
  destruct (Series_plot L (observed d)) as [o|e] eqn:Ho; simpl.
  2: { split; (split; [|intros (d' & o & t & se & r & H & H' & _);
                        inversion H; subst d'; rewrite Ho in H'; discriminate]).
       - destruct (is_Exception e); intros H; absent H.
       - destruct (is_Exception e); intros (fig & H); absent H. }
  destruct (Series_plot L (trend d)) as [t|e] eqn:Ht; simpl.
  2: { split; (split; [|intros (d' & o' & t & se & r & H & _ & H' & _);
                        inversion H; subst d'; rewrite Ht in H'; discriminate]).
       - destruct (is_Exception e); intros H; absent H.
       - destruct (is_Exception e); intros (fig & H); absent H. }
  destruct (Series_plot L (seasonal d)) as [se|e] eqn:Hse; simpl.
  2: { split; (split; [|intros (d' & o' & t' & se & r & H & _ & _ & H' & _);
                        inversion H; subst d'; rewrite Hse in H'; discriminate]).
       - destruct (is_Exception e); intros H; absent H.
       - destruct (is_Exception e); intros (fig & H); absent H. }
  destruct (Series_plot L (resid d)) as [r|e] eqn:Hr; simpl.
  2: { split; (split; [|intros (d' & o' & t' & se' & r & H & _ & _ & _ & H' & _);
                        inversion H; subst d'; rewrite Hr in H'; discriminate]).
       - destruct (is_Exception e); intros H; absent H.
       - destruct (is_Exception e); intros (fig & H); absent H. }
  assert (Hok : exists d' o' t' se' r',
             Returned d = Returned d'
             /\ Series_plot L (observed d') = Returned o'
             /\ Series_plot L (trend d') = Returned t'
             /\ Series_plot L (seasonal d') = Returned se'
             /\ Series_plot L (resid d') = Returned r'
             /\ [Subheader "Decomposition of Time Series";
                 Pyplot (decomposition_figure o t se r);
                 Markdown explanation]
                = [Subheader "Decomposition of Time Series";
                   Pyplot (decomposition_figure o' t' se' r');
                   Markdown explanation]).
  { exists d, o, t, se, r. repeat split; assumption. }
  split; (split; [intros _; exact Hok|intros _]).
  - right. right. left. reflexivity.
  - eexists. right. left. reflexivity.
Qed.

(** ** More on cleaning and selection *)

Lemma positions_from_nil (name : string) (cols : list string) :
  forall i, positions_from i name cols = [] <-> ~ In name cols.
Proof.
  induction cols as [|c cols IH]; simpl; intros i.
  - split; [intros _ [] | reflexivity].
  - destruct (String.eqb c name) eqn:E.
    + apply String.eqb_eq in E. split; [discriminate|].
      intros H. exfalso. apply H. left. exact E.
    + apply String.eqb_neq in E. rewrite IH. split.
      * intros H [H1|H1]; [contradiction | exact (H H1)].
      * intros H H1. apply H. right. exact H1.
Qed.

(** Renaming the first column makes a second YEAR exactly when a later
    column carries the first one's name or is called YEAR already. *)
Lemma renamed_has_YEAR (first : string) (rest : list string) :
  In "YEAR" (map (fun c => if String.eqb c first then "YEAR" else c) rest)
  <-> In "YEAR" rest \/ In first rest.
Proof.
  rewrite in_map_iff. split.
  - intros (c & Hc & Hin). destruct (String.eqb c first) eqn:E.
    + apply String.eqb_eq in E. subst c. right. exact Hin.
    + subst c. left. exact Hin.
  - intros [Hin|Hin].
    + exists "YEAR". split; [|exact Hin].
      destruct (String.eqb "YEAR" first); reflexivity.
    + exists first. split; [|exact Hin].
      rewrite String.eqb_refl. reflexivity.
Qed.

Lemma renamed_unchanged (first : string) (rest : list string) :
  ~ In first rest ->
  map (fun c => if String.eqb c first then "YEAR" else c) rest = rest.
Proof.
  induction rest as [|c rest IH]; simpl; intros H; [reflexivity|].
  destruct (String.eqb c first) eqn:E.
  - apply String.eqb_eq in E. exfalso. apply H. left. exact E.
  - f_equal. apply IH. intros Hin. apply H. right. exact Hin.
Qed.

Lemma year_indexed_collision (L : Libraries) (raw : DataFrame)
  (first : string) (rest : list string) :
  columns raw = first :: rest ->
  In "YEAR" rest \/ In first rest ->
  year_indexed L raw
  = Raised (TypeError "arg must be a list, tuple, 1-d array, or Series").
Proof.
  intros Hcols Hin. apply renamed_has_YEAR in Hin.
  destruct raw as [cols rs]. simpl in Hcols. subst cols.
  unfold year_indexed, getitem, positions.
  cbn [rename_columns columns map positions_from].
  rewrite String.eqb_refl. cbn.
  destruct (positions_from 1 "YEAR" _) as [|j js] eqn:Hpos.
  - apply positions_from_nil in Hpos. contradiction.
  - reflexivity.
Qed.

(** X7: renaming the first column to YEAR does not look at the other
    names.  When a later column is already called YEAR (or carries the
    name of the first one), [df["YEAR"]] is a frame, [pd.to_numeric]
    refuses it, and indexing the table ends in that TypeError. *)
Theorem second_YEAR_column_is_refused (L : Libraries) (raw : DataFrame)
  (first : string) (rest : list string) :
  columns raw = first :: rest ->
  In "YEAR" rest \/ In first rest ->
  year_indexed L raw
  = Raised (TypeError "arg must be a list, tuple, 1-d array, or Series").
Proof. exact (year_indexed_collision L raw first rest). Qed.

(** X8: when indexing succeeds, the columns offered for selection are
    the columns of the file after the first, under their own names and
    in their order; none of them is called YEAR. *)
Theorem offered_columns (L : Libraries) (raw df : DataFrame) :
  year_indexed L raw = Returned df ->
  exists first,
    columns raw = first :: columns df
    /\ ~ In "YEAR" (columns df)
    /\ ~ In first (columns df).
Proof.
  intros H.
  destruct (year_indexed_inv L raw df H)
    as (first & rest & ps & Hcols & _ & _ & _ & Hdf).
  assert (Hno : ~ (In "YEAR" rest \/ In first rest)).
  { intros Hin.
    rewrite (year_indexed_collision L raw first rest Hcols Hin) in H.
    discriminate. }
  assert (Hsame : columns df = rest).
  { rewrite Hdf. apply renamed_unchanged. intros Hin. apply Hno. right. exact Hin. }
  exists first. rewrite Hsame. split; [exact Hcols|].
  split; intros Hin; apply Hno; [left | right]; exact Hin.
Qed.

(** X9: a table with nothing but the year column leaves the select box
    without options; it returns [None], [df[None]] raises KeyError, and
    the run ends there, after the preview and the empty select box and
    before any chart or analyzer. *)
Theorem nothing_to_select (L : Libraries) (bytes : string) (choice : nat)
  (raw df : DataFrame) :
  read_csv L bytes = Returned raw ->
  year_indexed L raw = Returned df ->
  columns df = [] ->
  run L (Some bytes) choice
  = (banner ++ [Subheader "Raw Data"; Write [WFrame (head raw)];
                Selectbox "Select column for time series analysis" []],
     Raised (KeyError "None")).
Proof.
  intros Hraw Hdf Hcols.
  unfold run, analyse, prepare, selectbox, call, emit, ret, bind.
  rewrite Hraw. cbn. rewrite Hdf. cbn. rewrite Hcols.
  destruct choice; reflexivity.
Qed.

(** X11: the Selected Series is never longer than the table: it has at
    most as many observations as the raw table has rows whose year
    coerces, and each observation is labelled by an annual period. *)
Theorem series_within_table (L : Libraries) (bytes : string) (choice : nat)
  (s : Series) :
  ending (prepare L bytes choice) = Returned s ->
  exists raw,
    read_csv L bytes = Returned raw
    /\ length s <= nrows raw - length (filter (coercion_fails L) (rows raw))
    /\ Forall (fun x => exists p, fst x = LPeriod p) s.
Proof.
  intros Hp.
  destruct (prepare_inv L bytes choice s Hp)
    as (raw & df & name & line & Hraw & Hdf & _ & Hs & _).
  destruct (year_indexed_inv L raw df Hdf)
    as (first & rest & ps & _ & _ & Hidx & Hrows & _).
  exists raw. split; [exact Hraw|].
  unfold selected_series, getitem in Hs.
  destruct (positions name (columns df)) as [|j [|j' js]];
    simpl in Hs; try discriminate.
  rewrite map_map in Hs. simpl in Hs. inversion Hs; subst s; clear Hs.
  unfold dropna. split.
  - eapply Nat.le_trans; [apply filter_length_le|].
    rewrite length_map.
    rewrite <- (length_map snd (rows df)), Hrows, length_map.
    unfold nrows. rewrite filter_negb_length. apply Nat.le_refl.
  - apply Forall_forall. intros [l v] Hin.
    apply filter_In in Hin. destruct Hin as [Hin _].
    apply in_map_iff in Hin. destruct Hin as (r & Hr & Hin).
    inversion Hr; subst; clear Hr. cbn [fst].
    assert (Hl : In (fst r) (index df)) by (apply in_map; exact Hin).
    rewrite Hidx in Hl. apply in_map_iff in Hl.
    destruct Hl as (p & Hp' & _). exists p. symmetry. exact Hp'.
Qed.

(** X12: the selection keeps what is a number.  An entry of the selected
    column that is an integer or a float other than NaN, an infinite one
    included, is in the Selected Series under its label with its value
    unchanged; a column made of such entries only is the Selected Series
    as it stands. *)
Theorem numbers_are_kept (L : Libraries) (df : DataFrame) (name : string)
  (j : nat) (s : Series) :
  selected_series L df (Some name) = Returned s ->
  positions name (columns df) = [j] ->
  (forall r, In r (rows df) ->
     is_number (cell j r) = true -> isna (cell j r) = false ->
     In (fst r, cell j r) s)
  /\ (Forall (fun r => is_number (cell j r) = true /\ isna (cell j r) = false)
        (rows df) ->
      s = map (fun r => (fst r, cell j r)) (rows df)).
Proof.
  unfold selected_series, getitem. intros Hs Hpos. rewrite Hpos in Hs.
  simpl in Hs. rewrite map_map in Hs. simpl in Hs.
  inversion Hs; subst s; clear Hs.
  assert (Hid : forall v, is_number v = true -> to_numeric_coerce L v = v).
  { intros [z|f|t|]; simpl; try discriminate; reflexivity. }
  unfold dropna. split.
  - intros r Hr Hnum Hna. apply filter_In. split.
    + apply in_map_iff. exists r. rewrite (Hid _ Hnum). split; [reflexivity|exact Hr].
    + simpl. rewrite Hna. reflexivity.
  - intros Hall. induction (rows df) as [|r rs IH]; [reflexivity|].
    inversion Hall as [|r' rs' [Hnum Hna] Hrs]; subst.
    simpl. rewrite (Hid _ Hnum), Hna. simpl. f_equal. apply IH. exact Hrs.
Qed.

(** X13: the panels come in one order.  Whatever the upload and whatever
    the libraries do, the subheaders on the page are the first few of:
    Raw Data, Selected Series, Stationarity Test (ADF), Autocorrelation
    and Partial Autocorrelation, Decomposition of Time Series; a run cut
    short shows fewer of them, never another order. *)
Theorem panels_in_fixed_order (L : Libraries) (file : option string)
  (choice : nat) :
  exists n, subheaders (page (run L file choice)) = firstn n panel_order.
Proof.
  destruct file as [bytes|]; [|exists 0; reflexivity].
  unfold run, analyse, prepare, presentation, selectbox, analyzers,
    stationarity, correlation, decomposition, adf_body, acf_body,
    decomposition_body, call, emit, ret, bind, try_except.
  repeat match goal with
         | |- context [match ?x with _ => _ end] =>
             lazymatch x with
             | context [match _ with _ => _ end] => fail
             | _ => destruct x; cbn [fst snd app]
             end
         | |- context [if ?x then _ else _] => destruct x; cbn [fst snd app]
         end;
  first [ exists 0; reflexivity | exists 1; reflexivity | exists 2; reflexivity
        | exists 3; reflexivity | exists 4; reflexivity | exists 5; reflexivity ].
Qed.

(** X14: the two correlograms are one figure.  It is on the page exactly
    when [plot_acf] and [plot_pacf] both return; when the second fails,
    the first, though drawn, is not shown. *)
Theorem correlograms_need_both (L : Libraries) (s : Series) :
  (exists fig, In (Pyplot fig) (page (correlation L s)))
  <-> exists acf pacf,
        plot_acf L s = Returned acf
        /\ plot_pacf L s = Returned pacf
        /\ page (correlation L s)
           = [Subheader "Autocorrelation and Partial Autocorrelation";
              Pyplot (correlogram_figure acf pacf)].
Proof.
  unfold correlation, acf_body, call, emit, bind, try_except.
  destruct (plot_acf L s) as [acf|e] eqn:Ha; simpl.
  2: { split; [|intros (a & p & H & _); discriminate].
       destruct (is_Exception e); intros (fig & H); absent H. }
  destruct (plot_pacf L s) as [pacf|e] eqn:Hp; simpl.
  2: { split; [|intros (a & p & _ & H & _); discriminate].
       destruct (is_Exception e); intros (fig & H); absent H. }
  split.
  - intros _. exists acf, pacf. repeat split.
  - intros _. eexists. right. left. reflexivity.
Qed.

Lemma ending_cases (m : Script unit) :
  ending m = Returned tt \/ exists e, ending m = Raised e.
Proof.
  destruct m as [out [[]|e]]; simpl; [left; reflexivity|].
  right. exists e. reflexivity.
Qed.

Lemma guarded_block_returns (h : string) (body : Script unit)
  (handler : exn -> string) :
  ending (emit (Subheader h) ;;
          try_except body (fun e => emit (Error (handler e))))%script
  = Returned tt
  <-> catchable body = true.
Proof.
  unfold catchable. destruct body as [out [[]|e]]; simpl.
  - split; reflexivity.
  - destruct (is_Exception e); simpl; split; try reflexivity; discriminate.
Qed.

(** X15: a run on an upload falls off the end of the script exactly when
    it gets as far as the analyzers and none of them is left by an
    exception that is not an [Exception].  Every failure before the
    analyzers ends the run. *)
Theorem run_ends_normally_iff (L : Libraries) (bytes : string) (choice : nat) :
  ending (run L (Some bytes) choice) = Returned tt
  <-> exists s,
        ending (prepare L bytes choice) = Returned s
        /\ catchable (adf_body L s) = true
        /\ catchable (acf_body L s) = true
        /\ catchable (decomposition_body L s) = true.
Proof.
  destruct (ending (prepare L bytes choice)) as [s|e] eqn:Hp.
  - rewrite (run_after_prepare L bytes choice s Hp). unfold ending at 1.
    cbn [snd].
    pose proof (guarded_block_returns "Stationarity Test (ADF)" (adf_body L s)
                  (fun e => ("ADF test failed: " ++ exn_str e)%string)) as Hs.
    pose proof (guarded_block_returns
                  "Autocorrelation and Partial Autocorrelation" (acf_body L s)
                  (fun e => ("ACF/PACF plotting failed: " ++ exn_str e)%string))
      as Hc.
    pose proof (guarded_block_returns "Decomposition of Time Series"
                  (decomposition_body L s)
                  (fun e => ("Decomposition failed: " ++ exn_str e)%string))
      as Hd.
    fold (stationarity L s) in Hs. fold (correlation L s) in Hc.
    fold (decomposition L s) in Hd.
    split.
    + intros Hend. exists s. split; [reflexivity|].
      unfold analyzers in Hend.
      destruct (ending_cases (stationarity L s)) as [E1|[e E1]].
      2: { rewrite (bind_raised _ _ _ E1) in Hend. discriminate. }
      rewrite (bind_returned _ _ tt E1) in Hend. cbn [ending snd] in Hend.
      destruct (ending_cases (correlation L s)) as [E2|[e E2]].
      2: { rewrite (bind_raised _ _ _ E2) in Hend. discriminate. }
      rewrite (bind_returned _ _ tt E2) in Hend. cbn [ending snd] in Hend.
      split; [apply Hs; exact E1|]. split; [apply Hc; exact E2|].
      apply Hd. exact Hend.
    + intros (s' & Hs' & C1 & C2 & C3). inversion Hs'; subst s'.
      rewrite (analyzers_run_in_turn L s C1 C2 C3). reflexivity.
  - split.
    + unfold run. repeat (rewrite bind_emit; cbn [page ending fst snd]; cbn beta).
      unfold analyse. rewrite (bind_raised _ _ _ Hp). discriminate.
    + intros (s & Hs & _). discriminate.
Qed.

(** ** The further properties on the sample uploads *)

Lemma raw_preview_comes_first_witness :
  (exists rest,
     page (run Sample.lib (Some Sample.csv_five) 0)
     = banner ++ [Subheader "Raw Data"; Write [WFrame (head Sample.raw_five)]]
       ++ rest)
  /\ nrows (head Sample.raw_five) = 5.
Proof.
  destruct (raw_preview_comes_first Sample.lib Sample.csv_five 0
              Sample.raw_five eq_refl) as (Hpage & _ & Hn & _).
  split; [exact Hpage | exact Hn].
Defined.

Lemma errors_come_from_analyzers_witness :
  exists bytes s e,
    Some Sample.csv_five = Some bytes
    /\ ending (prepare Sample.lib bytes 0) = Returned s
    /\ ((ending (adf_body Sample.lib s) = Raised e
         /\ "Decomposition failed: x must have 2 complete cycles"
            = ("ADF test failed: " ++ exn_str e)%string)
        \/ (ending (acf_body Sample.lib s) = Raised e
            /\ "Decomposition failed: x must have 2 complete cycles"
               = ("ACF/PACF plotting failed: " ++ exn_str e)%string)
        \/ (ending (decomposition_body Sample.lib s) = Raised e
            /\ "Decomposition failed: x must have 2 complete cycles"
               = ("Decomposition failed: " ++ exn_str e)%string)).
Proof.
  apply (errors_come_from_analyzers Sample.lib (Some Sample.csv_five) 0).
  vm_compute. repeat (first [left; reflexivity | right]).
Defined.

Lemma base_exception_is_not_caught_witness :
  analyzers (Sample.reading Sample.raw_five (Raised Sample.KeyboardInterrupt))
    Sample.temp_five
  = ([Subheader "Stationarity Test (ADF)"], Raised Sample.KeyboardInterrupt)
  /\ ending (run (Sample.reading Sample.raw_five
                    (Raised Sample.KeyboardInterrupt)) (Some "upload") 0)
     = Raised Sample.KeyboardInterrupt.
Proof.
  destruct (base_exception_is_not_caught
              (Sample.reading Sample.raw_five (Raised Sample.KeyboardInterrupt))
              Sample.temp_five Sample.KeyboardInterrupt eq_refl eq_refl)
    as [Han Hrun].
  split; [exact Han|]. apply Hrun. reflexivity.
Defined.

Lemma nan_pvalue_is_not_stationary_witness :
  stationarity (Sample.lib_with_pvalue nan) []
  = ([Subheader "Stationarity Test (ADF)";
      Write [WStr "ADF Statistic:"; WFloat (-2.5)];
      Write [WStr "p-value:"; WFloat nan];
      Warning "Series is not stationary"], Returned tt).
Proof.
  exact (nan_pvalue_is_not_stationary (Sample.lib_with_pvalue nan) []
           (mkAdf (-2.5)%float nan) eq_refl eq_refl).
Defined.

Lemma second_YEAR_column_is_refused_witness :
  year_indexed Sample.lib Sample.raw_two_years
  = Raised (TypeError "arg must be a list, tuple, 1-d array, or Series").
Proof.
  apply (second_YEAR_column_is_refused Sample.lib Sample.raw_two_years
           "Date" ["YEAR"; "TEMP"] eq_refl).
  left. left. reflexivity.
Defined.

Lemma offered_columns_witness :
  exists first,
    columns Sample.raw_five = first :: columns Sample.indexed_five
    /\ ~ In "YEAR" (columns Sample.indexed_five)
    /\ ~ In first (columns Sample.indexed_five).
Proof.
  exact (offered_columns Sample.lib Sample.raw_five Sample.indexed_five eq_refl).
Defined.

Lemma nothing_to_select_witness :
  run (Sample.reading Sample.raw_year_only (Raised Sample.KeyboardInterrupt))
      (Some "upload") 0
  = (banner ++ [Subheader "Raw Data"; Write [WFrame (head Sample.raw_year_only)];
                Selectbox "Select column for time series analysis" []],
     Raised (KeyError "None")).
Proof.
  apply (nothing_to_select _ "upload" 0 Sample.raw_year_only
           (mkFrame [] [(LPeriod (mkPeriod 1901), []);
                        (LPeriod (mkPeriod 1902), [])]));
    reflexivity.
Defined.

Lemma series_within_table_witness :
  exists raw,
    read_csv Sample.lib Sample.csv_five = Returned raw
    /\ length Sample.temp_five
       <= nrows raw - length (filter (coercion_fails Sample.lib) (rows raw))
    /\ Forall (fun x => exists p, fst x = LPeriod p) Sample.temp_five.
Proof.
  exact (series_within_table Sample.lib Sample.csv_five 0 Sample.temp_five
           eq_refl).
Defined.

Lemma numbers_are_kept_witness :
  In (LPeriod (mkPeriod 1902), VFloat infinity)
     [(LPeriod (mkPeriod 1901), VFloat 1.5);
      (LPeriod (mkPeriod 1902), VFloat infinity)].
Proof.
  refine (proj1 (numbers_are_kept Sample.lib
                   (mkFrame ["FLOW"]
                      [(LPeriod (mkPeriod 1901), [VFloat 1.5]);
                       (LPeriod (mkPeriod 1902), [VFloat infinity]);
                       (LPeriod (mkPeriod 1903), [VStr "n/a"])])
                   "FLOW" 0 _ eq_refl eq_refl)
                (LPeriod (mkPeriod 1902), [VFloat infinity]) _ eq_refl eq_refl).
  right. left. reflexivity.
Defined.

(** ** Indexing by year: when it returns, and what the index is *)

Section Indexing.

Context (L : Libraries).

Lemma cast_returns (rs : list (label * list value)) :
  forallb (year_usable L) rs = true ->
  exists ints,
    traverse (astype_Int64 L)
      (map (fun r => to_numeric_coerce L (cell 0 r)) rs) = Returned ints.
Proof.
  induction rs as [|r rs IH]; simpl; intros H.
  - exists []. reflexivity.
  - apply andb_prop in H. destruct H as [Hr Hrs].
    destruct (IH Hrs) as [ints Hints]. rewrite Hints.
    unfold year_usable in Hr. unfold astype_Int64.
    destruct (isna (to_numeric_coerce L (cell 0 r))).
    + eexists. reflexivity.
    + destruct (cast_Int64 L (to_numeric_coerce L (cell 0 r))) as [z|];
        [|discriminate].
      eexists. reflexivity.
Qed.

Lemma periods_return (rs : list (label * list value)) :
  forallb (year_usable L) rs = true ->
  exists idx,
    PeriodIndex L (map VInt (kept_years L (mkFrame [] rs))) = Returned idx.
Proof.
  unfold kept_years, PeriodIndex. simpl.
  induction rs as [|r rs IH]; simpl; intros H.
  - exists []. reflexivity.
  - apply andb_prop in H. destruct H as [Hr Hrs].
    destruct (IH Hrs) as [idx Hidx].
    unfold year_usable in Hr.
    destruct (astype_Int64 L (to_numeric_coerce L (cell 0 r))) as [w|] eqn:Hw;
      [|exists idx; exact Hidx].
    destruct w as [z| | |]; try (exists idx; exact Hidx).
    unfold astype_Int64 in Hw.
    destruct (isna (to_numeric_coerce L (cell 0 r))); [discriminate|].
    destruct (cast_Int64 L (to_numeric_coerce L (cell 0 r))) as [z'|];
      [|discriminate].
    simpl in Hw. inversion Hw; subst z'.
    simpl. destruct (Period_Y L z) as [p|]; [|discriminate].
    simpl. rewrite Hidx. eexists. reflexivity.
Qed.

(** A table that can be indexed is indexed. *)
Lemma year_indexed_returns (raw : DataFrame) :
  indexable L raw -> exists df, year_indexed L raw = Returned df.
Proof.
  intros (first & rest & Hcols & HY & Hfirst & Hrows).
  destruct raw as [cols rs]. simpl in Hcols, Hrows. subst cols.
  assert (Hpos : positions_from 1 "YEAR"
                   (map (fun c => if String.eqb c first then "YEAR" else c) rest)
                 = []).
  { apply positions_from_nil. rewrite renamed_has_YEAR. tauto. }
  unfold year_indexed. simpl.
  unfold getitem, positions. simpl. rewrite String.eqb_refl. simpl.
  rewrite Hpos. simpl. rewrite !map_map. simpl.
  destruct (cast_returns rs Hrows) as [ints Hints]. rewrite Hints.
  destruct (kept_rows L rs ints Hints) as [_ Hyears]. simpl in Hyears.
  rewrite Hyears.
  destruct (periods_return rs Hrows) as [idx Hidx]. rewrite Hidx.
  eexists. reflexivity.
Qed.

Lemma periods_of_years (zs : list Z) :
  Forall (fun z => Period_Y L z = Returned (mkPeriod z)) zs ->
  traverse (Period_Y L) zs = Returned (map mkPeriod zs).
Proof.
  induction 1 as [|z zs Hz _ IH]; simpl; [reflexivity|].
  rewrite Hz, IH. reflexivity.
Qed.

Lemma traverse_map {A B C : Type} (f : B -> outcome C) (g : A -> B)
  (l : list A) :
  traverse f (map g l) = traverse (fun x => f (g x)) l.
Proof.
  induction l as [|x l IH]; simpl; [reflexivity|].
  rewrite IH. reflexivity.
Qed.

Lemma traverse_raises {A B : Type} (f : A -> outcome B) (l : list A) (a : A)
  (e : exn) :
  In a l -> f a = Raised e ->
  exists a' e', In a' l /\ f a' = Raised e' /\ traverse f l = Raised e'.
Proof.
  induction l as [|x l IH]; simpl; intros Hin Hf; [destruct Hin|].
  destruct (f x) as [b|ex] eqn:Hx.
  - destruct Hin as [->|Hin]; [rewrite Hf in Hx; discriminate|].
    destruct (IH Hin Hf) as (a' & e' & Hin' & Hf' & Ht).
    exists a', e'. rewrite Ht. repeat split; [right; exact Hin' | exact Hf'].
  - exists x, ex. repeat split; [left; reflexivity | exact Hx].
Qed.

End Indexing.


(** C4, as amended: for a table that can be indexed and whose kept years
    [PeriodIndex] reads as the periods of those years, the script
    returns a table whose index lists, in the order of the raw rows, the
    coerced years of the rows that are kept; the index is free of
    duplicates and non-decreasing when those years increase strictly
    down the rows.  The script does not sort and does not remove
    duplicates. *)
Theorem year_index_follows_rows (L : Libraries) (raw : DataFrame) :
  indexable L raw ->
  Forall (fun z => Period_Y L z = Returned (mkPeriod z)) (kept_years L raw) ->
  exists df,
    year_indexed L raw = Returned df
    /\ index df = map (fun z => LPeriod (mkPeriod z)) (kept_years L raw)
    /\ index_years df = kept_years L raw
    /\ (Sorted Z.lt (kept_years L raw) ->
        NoDup (index_years df) /\ Sorted Z.le (index_years df)).
Proof.
  intros Hraw Hperiods.
  destruct (year_indexed_returns L raw Hraw) as [df Hdf].
  exists df. split; [exact Hdf|].
  destruct (year_indexed_inv L raw df Hdf) as (first & rest & ps & _ & Hps & Hidx & _).
  rewrite (periods_of_years L _ Hperiods) in Hps. inversion Hps; subst ps.
  assert (Hyears : index_years df = kept_years L raw).
  { unfold index_years. rewrite Hidx, !map_map. simpl. apply map_id. }
  split; [rewrite Hidx, map_map; reflexivity|].
  split; [exact Hyears|].
  rewrite Hyears. intros Hs.
  split; [apply Sorted_lt_NoDup | apply Sorted_lt_le]; exact Hs.
Qed.

(** X10: a year that the cast to [Int64] refuses is not dropped the way
    a year that is not a number is: the exception of the cast leaves the
    script, and a run on such an upload ends in it right after the raw
    preview, before the select box. *)
Theorem refused_year_stops_the_run (L : Libraries) (raw : DataFrame)
  (first : string) (rest : list string) (r : label * list value) (e : exn) :
  columns raw = first :: rest ->
  ~ In "YEAR" rest -> ~ In first rest ->
  In r (rows raw) ->
  astype_Int64 L (to_numeric_coerce L (cell 0 r)) = Raised e ->
  exists r' e',
    In r' (rows raw)
    /\ astype_Int64 L (to_numeric_coerce L (cell 0 r')) = Raised e'
    /\ year_indexed L raw = Raised e'
    /\ forall bytes choice,
         read_csv L bytes = Returned raw ->
         run L (Some bytes) choice
         = (banner ++ [Subheader "Raw Data"; Write [WFrame (head raw)]],
            Raised e').
Proof.
  intros Hcols HY Hfirst Hr He.
  destruct (traverse_raises
              (fun r => astype_Int64 L (to_numeric_coerce L (cell 0 r)))
              (rows raw) r e Hr He) as (r' & e' & Hr' & He' & Ht).
  assert (Hy : year_indexed L raw = Raised e').
  { destruct raw as [cols rs]. simpl in Hcols, Ht. subst cols.
    assert (Hpos : positions_from 1 "YEAR"
                     (map (fun c => if String.eqb c first then "YEAR" else c) rest)
                   = []).
    { apply positions_from_nil. rewrite renamed_has_YEAR. tauto. }
    unfold year_indexed. simpl.
    unfold getitem, positions. simpl. rewrite String.eqb_refl. simpl.
    rewrite Hpos. simpl. rewrite !map_map. simpl.
    rewrite traverse_map, Ht. reflexivity. }
  exists r', e'. repeat split; try assumption.
  intros bytes choice Hraw.
  unfold run, analyse, prepare, call, emit, bind.
  rewrite Hraw. cbn. rewrite Hy. reflexivity.
Qed.

(** ** Indexing and the chart on the sample uploads *)

Lemma sample_five_indexable : indexable Sample.lib Sample.raw_five.
Proof.
  exists "Year", ["TEMP"; "RAIN"].
  split; [reflexivity|].
  split; [intros [H|[H|[]]]; discriminate|].
  split; [intros [H|[H|[]]]; discriminate|].
  reflexivity.
Qed.


Lemma year_index_follows_rows_witness :
  exists df,
    year_indexed Sample.lib Sample.raw_five = Returned df
    /\ index_years df = [1901; 1903; 1904; 1905]%Z
    /\ NoDup (index_years df)
    /\ Sorted Z.le (index_years df).
Proof.
  assert (Hperiods : Forall (fun z => Period_Y Sample.lib z = Returned (mkPeriod z))
                       (kept_years Sample.lib Sample.raw_five)).
  { repeat constructor. }
  assert (Hsorted : Sorted Z.lt (kept_years Sample.lib Sample.raw_five)).
  { change (kept_years Sample.lib Sample.raw_five)
      with [1901; 1903; 1904; 1905]%Z.
    repeat constructor. }
  destruct (year_index_follows_rows Sample.lib Sample.raw_five
              sample_five_indexable Hperiods)
    as (df & Hdf & _ & Hyears & Hs).
  exists df. split; [exact Hdf|]. split; [rewrite Hyears; reflexivity|].
  exact (Hs Hsorted).
Defined.

(** A column of text gives a Selected Series without observations; the
    chart of such a series is refused, outside every [try]: the run ends
    at the chart, no analyzer runs, and neither a chart nor an error
    message is on the page. *)
Lemma empty_series_has_no_chart :
  needs_two_cycles (Sample.plot_refusing_nothing Sample.raw_text_only)
  /\ (exists df,
        year_indexed (Sample.plot_refusing_nothing Sample.raw_text_only)
          Sample.raw_text_only = Returned df
        /\ selected_series (Sample.plot_refusing_nothing Sample.raw_text_only)
             df (Some "TEMP") = Returned []
        /\ length (@nil (label * value)) < 20)
  /\ run (Sample.plot_refusing_nothing Sample.raw_text_only) (Some "upload") 0
     = (banner ++ [Subheader "Raw Data"; Write [WFrame (head Sample.raw_text_only)];
                   Selectbox "Select column for time series analysis" ["TEMP"];
                   Subheader "Selected Series"],
        Raised (ValueError
          "zero-size array to reduction operation fmin which has no identity"))
  /\ ~ (exists fig,
          In (Pyplot fig)
             (page (run (Sample.plot_refusing_nothing Sample.raw_text_only)
                      (Some "upload") 0)))
  /\ ~ reports_error
         (run (Sample.plot_refusing_nothing Sample.raw_text_only)
            (Some "upload") 0).
Proof.
  split.
  { intros s model period H. simpl. unfold Sample.sample_seasonal_decompose.
    apply Nat.ltb_lt in H. rewrite H. eexists. split; reflexivity. }
  split.
  { eexists. split; [reflexivity|]. split; [reflexivity|]. simpl. lia. }
  split; [reflexivity|].
  split.
  - intros (fig & H). vm_compute in H.
    repeat (destruct H as [H|H]; [discriminate|]). destruct H.
  - intros (msg & H). vm_compute in H.
    repeat (destruct H as [H|H]; [discriminate|]). destruct H.
Qed.

Lemma refused_year_stops_the_run_witness :
  exists r' e',
    In r' (rows Sample.raw_half_year)
    /\ astype_Int64 Sample.lib (to_numeric_coerce Sample.lib (cell 0 r'))
       = Raised e'
    /\ year_indexed Sample.lib Sample.raw_half_year = Raised e'
    /\ forall bytes choice,
         read_csv Sample.lib bytes = Returned Sample.raw_half_year ->
         run Sample.lib (Some bytes) choice
         = (banner ++ [Subheader "Raw Data";
                       Write [WFrame (head Sample.raw_half_year)]],
            Raised e').
Proof.
  refine (refused_year_stops_the_run Sample.lib Sample.raw_half_year
            "YEAR" ["TEMP"] (LPos 1, [VFloat 1901.5; VFloat 2.5])
            (TypeError "cannot safely cast to int64")
            eq_refl _ _ _ eq_refl).
  - intros [H|[]]. discriminate.
  - intros [H|[]]. discriminate.
  - right. left. reflexivity.
Defined.
